(** * postbuild: HTML post-build asset injector

    A shallow embedding of [postbuild.mjs] (ES module) and of its CommonJS
    sibling (the second source file, which adds the async/defer options),
    followed by the properties of the pattern resolver, the tag generator and
    the four-stage transform pipeline.

    Text is modelled as [string]: a sequence of 8-bit code units.  The file
    system, the glob library, [path.join], the digest and the child process
    are capabilities of an environment record; JavaScript regular expressions
    are given an executable backtracking semantics for the fragment the
    pipeline needs, and a run whose pattern lies outside that fragment ends
    as [OutsideModel]. *)

From Stdlib Require Import String Ascii List Bool Arith Lia.
Import ListNotations.
Open Scope string_scope.

Set Implicit Arguments.

(** ** Errors and results *)

Inductive JsError : Type :=
| SystemError (code path : string)      (* a rejected fs promise *)
| SyntaxError (msg : string)            (* thrown by the RegExp constructor *)
| ReferenceError (name : string)        (* an identifier with no binding *)
| LibraryError (msg : string)           (* thrown by glob or the digest *)
| NotModelled.                          (* a pattern outside the RegExp fragment below *)

Inductive Result (A : Type) : Type :=
| Ok (a : A)
| Err (e : JsError).
Arguments Ok {A} a.
Arguments Err {A} e.

Definition bind {A B} (m : Result A) (k : A -> Result B) : Result B :=
  match m with
  | Ok a => k a
  | Err e => Err e
  end.

Notation "x <- m ;; k" := (bind m (fun x => k))
  (at level 61, m at next level, right associativity).

(** [for (const x of xs) { ...; tags.push(...) }] with awaits that may reject:
    the first rejection aborts the loop. *)
Fixpoint mapM {A B} (f : A -> Result B) (xs : list A) : Result (list B) :=
  match xs with
  | [] => Ok []
  | x :: rest =>
      y <- f x ;;
      ys <- mapM f rest ;;
      Ok (y :: ys)
  end.

(** ** JavaScript string primitives used by the sources *)

Module Js.

(** The double quote, which cannot be typed inside a string literal. *)
Definition dq : string := String (ascii_of_nat 34) "".
Definition nl : string := String (ascii_of_nat 10) "".

(** [s.slice(n)] for [n >= 0]. *)
Fixpoint slice (n : nat) (s : string) : string :=
  match n, s with
  | 0, _ => s
  | S _, "" => ""
  | S m, String _ t => slice m t
  end.

(** The first [n] code units. *)
Fixpoint take (n : nat) (s : string) : string :=
  match n, s with
  | 0, _ => ""
  | S _, "" => ""
  | S m, String c t => String c (take m t)
  end.

(** [s.startsWith(p)], returning what follows the prefix. *)
Fixpoint stripPrefix (p s : string) : option string :=
  match p, s with
  | "", _ => Some s
  | String _ _, "" => None
  | String a p', String b s' =>
      if Ascii.eqb a b then stripPrefix p' s' else None
  end.

(** [s.endsWith(suffix)]. *)
Definition endsWith (s suffix : string) : bool :=
  (String.length suffix <=? String.length s)%nat &&
  String.eqb (slice (String.length s - String.length suffix) s) suffix.

(** [xs.join(sep)]. *)
Fixpoint join (sep : string) (xs : list string) : string :=
  match xs with
  | [] => ""
  | [x] => x
  | x :: rest => x ++ sep ++ join sep rest
  end.

(** [s.split(sep)] for a one-character separator, as a non-empty list:
    the pieces before the last separator and the last piece. *)
Fixpoint split (sep : ascii) (s : string) : list string * string :=
  match s with
  | "" => ([], "")
  | String c t =>
      let '(pieces, last) := split sep t in
      if Ascii.eqb c sep then
        match pieces with
        | [] => ([""], last)
        | p :: ps => ("" :: p :: ps, last)
        end
      else
        match pieces with
        | [] => ([], String c last)
        | p :: ps => (String c p :: ps, last)
        end
  end.

(** [s.split(sep).pop()]. *)
Definition splitPop (sep : ascii) (s : string) : string := snd (split sep s).

(** White space and line terminators among the 8-bit code units. *)
Definition isSpace (c : ascii) : bool :=
  let n := nat_of_ascii c in
  ((9 <=? n) && (n <=? 13) || (n =? 32) || (n =? 160))%nat.

Definition isLineTerminator (c : ascii) : bool :=
  let n := nat_of_ascii c in ((n =? 10) || (n =? 13))%nat.

Fixpoint trimStart (s : string) : string :=
  match s with
  | "" => ""
  | String c t => if isSpace c then trimStart t else s
  end.

Fixpoint rev (s acc : string) : string :=
  match s with
  | "" => acc
  | String c t => rev t (String c acc)
  end.

(** [s.trim()]. *)
Definition trim (s : string) : string :=
  rev (trimStart (rev (trimStart s) "")) "".

(** [s.includes(c)] for one code unit. *)
Fixpoint hasChar (c : ascii) (s : string) : bool :=
  match s with
  | "" => false
  | String d t => Ascii.eqb c d || hasChar c t
  end.

(** Truthiness of a string: the empty string is falsy. *)
Definition truthy (s : string) : bool :=
  match s with "" => false | _ => true end.

End Js.

(** ** Regular expressions

    The pipeline's four patterns are written in the sources as pattern text
    (three regex literals and one [new RegExp] over a template string).  The
    pattern text is parsed into [regex] by [RegExp.compile] and run by the
    backtracking matcher [RegExp.rmatch], which follows the continuation
    style of the ECMAScript matcher semantics.

    The fragment covers: literal characters, [.], the escapes [\s], [\S] and
    escaped syntax characters, bracket classes made of those, groups,
    alternation and the quantifiers [*], [+], [?] with their lazy forms.
    Anything else ([^], [$], braces, ranges, negated classes, other escapes,
    [(?...)]) is reported as [NotModelled].  Capture groups are parsed but
    not recorded: no replacement in the sources reads one. *)

Module RegExp.

Inductive charset : Type :=
| CsNone
| CsChar (c : ascii)
| CsDot
| CsSpace
| CsNonSpace
| CsUnion (a b : charset).

Fixpoint csMem (cs : charset) (c : ascii) : bool :=
  match cs with
  | CsNone => false
  | CsChar d => Ascii.eqb d c
  | CsDot => negb (Js.isLineTerminator c)
  | CsSpace => Js.isSpace c
  | CsNonSpace => negb (Js.isSpace c)
  | CsUnion a b => csMem a c || csMem b c
  end.

Inductive regex : Type :=
| Eps
| Cset (cs : charset)
| Seq (a b : regex)
| Alt (a b : regex)
| Star (greedy : bool) (a : regex)
| Group (a : regex).

(** *** Matching

    [rmatch r s k] matches [r] at the start of [s] and hands the rest of
    the input to the continuation [k]; backtracking is the [None] answer
    of [k].  A [Star] iteration that consumes nothing is rejected, as in
    ECMAScript, so the input length bounds the number of iterations. *)
Fixpoint rmatch (A : Type) (r : regex) (s : string) (k : string -> option A)
  {struct r} : option A :=
  match r with
  | Eps => k s
  | Cset cs =>
      match s with
      | "" => None
      | String c t => if csMem cs c then k t else None
      end
  | Seq a b => rmatch a s (fun s1 => rmatch b s1 k)
  | Alt a b =>
      match rmatch a s k with
      | Some x => Some x
      | None => rmatch b s k
      end
  | Group a => rmatch a s k
  | Star greedy a =>
      (fix loop (n : nat) (s : string) {struct n} : option A :=
         match n with
         | 0 => k s
         | S n' =>
             let again :=
               rmatch a s (fun s1 =>
                 if (String.length s1 <? String.length s)%nat
                 then loop n' s1 else None) in
             if greedy then
               match again with Some x => Some x | None => k s end
             else
               match k s with Some x => Some x | None => again end
         end) (String.length s) s
  end.

(** The match of [r] anchored at the start of [s]: what follows it. *)
Definition matchAt (r : regex) (s : string) : option string :=
  rmatch r s (fun rest => Some rest).

(** *** Parsing the pattern text *)

Inductive quant : Type := QStar | QPlus | QOpt.

(** A term: an atom and its quantifier with its laziness mark. *)
Definition term : Type := (regex * option (quant * bool))%type.

Definition termRegex (t : term) : regex :=
  match t with
  | (a, None) => a
  | (a, Some (QStar, lazy)) => Star (negb lazy) a
  | (a, Some (QPlus, lazy)) => Seq a (Star (negb lazy) a)
  | (a, Some (QOpt, false)) => Alt a Eps
  | (a, Some (QOpt, true)) => Alt Eps a
  end.

(** A disjunction being read: the alternatives already closed by [|] and
    the terms of the current one, both latest first. *)
Record frame : Type := Frame { alts : list regex; terms : list term }.

Definition emptyFrame : frame := Frame [] [].

Definition seqOf (ts : list term) : regex :=
  fold_left (fun acc t => Seq (termRegex t) acc) ts Eps.

Definition frameRegex (f : frame) : regex :=
  fold_left (fun acc a => Alt a acc) (alts f) (seqOf (terms f)).

Inductive mode : Type :=
| MNormal
| MGroupOpen                  (* just after [(] *)
| MEscape                     (* just after [\] *)
| MClass (items : charset)    (* inside [[...]] *)
| MClassEscape (items : charset).

Record pstate : Type := PState { stack : list frame; cur : frame; md : mode }.

Inductive presult : Type :=
| PNext (st : pstate)
| PSyntax (msg : string)
| POutside.

Definition isSyntaxChar (c : ascii) : bool :=
  existsb (Ascii.eqb c) (list_ascii_of_string "^$\.*+?()[]{}|/").

Definition pushTerm (st : pstate) (a : regex) : presult :=
  PNext (PState (stack st)
                (Frame (alts (cur st)) ((a, None) :: terms (cur st)))
                MNormal).

Definition quantify (st : pstate) (q : quant) : presult :=
  match terms (cur st) with
  | (a, None) :: ts =>
      PNext (PState (stack st) (Frame (alts (cur st)) ((a, Some (q, false)) :: ts))
                    MNormal)
  | (a, Some (q0, false)) :: ts =>
      match q with
      | QOpt =>
          PNext (PState (stack st)
                        (Frame (alts (cur st)) ((a, Some (q0, true)) :: ts))
                        MNormal)
      | _ => PSyntax "Nothing to repeat"
      end
  | _ => PSyntax "Nothing to repeat"
  end.

Definition pstepNormal (st : pstate) (c : ascii) : presult :=
  match c with
  | "("%char => PNext (PState (cur st :: stack st) emptyFrame MGroupOpen)
  | ")"%char =>
      match stack st with
      | [] => PSyntax "Unmatched ')'"
      | parent :: rest =>
          PNext (PState rest
                        (Frame (alts parent)
                               ((Group (frameRegex (cur st)), None) :: terms parent))
                        MNormal)
      end
  | "|"%char =>
      PNext (PState (stack st)
                    (Frame (seqOf (terms (cur st)) :: alts (cur st)) [])
                    MNormal)
  | "*"%char => quantify st QStar
  | "+"%char => quantify st QPlus
  | "?"%char => quantify st QOpt
  | "."%char => pushTerm st (Cset CsDot)
  | "\"%char => PNext (PState (stack st) (cur st) MEscape)
  | "["%char => PNext (PState (stack st) (cur st) (MClass CsNone))
  | "^"%char | "$"%char | "{"%char | "}"%char | "]"%char => POutside
  | _ => pushTerm st (Cset (CsChar c))
  end.

Definition escapeSet (c : ascii) : option charset :=
  match c with
  | "s"%char => Some CsSpace
  | "S"%char => Some CsNonSpace
  | _ => if isSyntaxChar c then Some (CsChar c) else None
  end.

Definition pstep (st : pstate) (c : ascii) : presult :=
  match md st with
  | MNormal => pstepNormal st c
  | MGroupOpen =>
      match c with
      | "?"%char => POutside
      | _ => pstepNormal st c
      end
  | MEscape =>
      match escapeSet c with
      | Some cs => pushTerm st (Cset cs)
      | None => POutside
      end
  | MClass items =>
      match c with
      | "]"%char => pushTerm st (Cset items)
      | "\"%char => PNext (PState (stack st) (cur st) (MClassEscape items))
      | "^"%char | "-"%char => POutside
      | _ => PNext (PState (stack st) (cur st) (MClass (CsUnion items (CsChar c))))
      end
  | MClassEscape items =>
      match escapeSet c with
      | Some cs => PNext (PState (stack st) (cur st) (MClass (CsUnion items cs)))
      | None => POutside
      end
  end.

Definition pfinish (st : pstate) : Result regex :=
  match md st with
  | MEscape => Err (SyntaxError "\ at end of pattern")
  | MClass _ | MClassEscape _ => Err (SyntaxError "Unterminated character class")
  | MNormal | MGroupOpen =>
      match stack st with
      | [] => Ok (frameRegex (cur st))
      | _ :: _ => Err (SyntaxError "Unterminated group")
      end
  end.

Fixpoint prun (st : pstate) (p : string) : Result regex :=
  match p with
  | "" => pfinish st
  | String c rest =>
      match pstep st c with
      | PNext st' => prun st' rest
      | PSyntax msg => Err (SyntaxError msg)
      | POutside => Err NotModelled
      end
  end.

(** [new RegExp(source)] and the regex literal [/source/]. *)
Definition compile (source : string) : Result regex :=
  prun (PState [] emptyFrame MNormal) source.

(** *** Global replacement

    [replaceAll r f s] rewrites every successive non-overlapping match of
    [r], scanning from the left; [skip] counts the code units of the
    current match still to be passed over.  The matches of the
    pipeline's patterns are never empty (each starts with a marker), and
    an empty match is not a replacement here. *)
Fixpoint replaceFrom (r : regex) (f : string -> string) (skip : nat) (s : string)
  : string :=
  match s with
  | "" => ""
  | String c t =>
      match skip with
      | S n => replaceFrom r f n t
      | 0 =>
          match matchAt r s with
          | Some rest =>
              match String.length s - String.length rest with
              | S n => f (Js.take (S n) s) ++ replaceFrom r f n t
              | 0 => String c (replaceFrom r f 0 t)
              end
          | None => String c (replaceFrom r f 0 t)
          end
      end
  end.

Definition replaceAll (r : regex) (f : string -> string) (s : string) : string :=
  replaceFrom r f 0 s.

End RegExp.

(** ** The environment of a run *)

(** What [fs.lstat] reports: a directory, a regular file, or anything else
    (a symbolic link, a socket, a device). *)
Inductive Stats : Type := StDirectory | StFile | StOther.

Definition isDirectory (st : Stats) : bool :=
  match st with StDirectory => true | _ => false end.

Definition isFile (st : Stats) : bool :=
  match st with StFile => true | _ => false end.

(** What the promise of [promisify(cp.exec)] resolves with: the object
    [{ stdout, stderr }]. *)
Record ExecResult : Type := {
  stdout : string;
  stderr : string
}.

(** [.toString()] on that object.  A plain object has no [toString] of its
    own and inherits [Object.prototype.toString], which does not read the
    fields. *)
Definition toString (r : ExecResult) : string := "[object Object]".

(** The capabilities the program obtains from Node and its libraries.  The
    file system is the one the run finds; the only change a run makes to it
    is the opening of its output file, which [main] accounts for. *)
Record Env : Type := {
  cwd : string;                                (* process.cwd() *)
  pathJoin : string -> string -> string;       (* path.join of node:path/posix *)
  hasMagic : string -> bool;                   (* hasMagic of glob *)
  glob : string -> Result (list string);       (* glob(pattern, { posix: true }) *)
  lstat : string -> Result Stats;              (* fsPromise.lstat *)
  readdir : string -> Result (list string);    (* fsPromise.readdir *)
  readFile : string -> Result string;          (* fsPromise.readFile(_, 'utf-8') *)
  createHash : string -> Result unit;          (* crypto.createHash(algorithm): throws
                                                  when the digest is not supported *)
  shaHex : string -> string;                   (* .update(_).digest('hex') of that hash *)
  exec : string -> Result ExecResult;          (* promisify(cp.exec)(command), awaited *)
  sameFile : string -> string -> bool          (* two paths that lead to one file *)
}.

(** How a run ends. *)
Inductive Outcome : Type :=
| Exit (code : nat) (stderr : string)   (* handleError: console.error, process.exit *)
| Uncaught (e : JsError)                (* an exception nobody catches *)
| Written (file content : string)       (* the content of the output file at the end *)
| OutsideModel.                         (* the pipe holds a pattern outside the
                                           RegExp fragment: no answer *)

(** Whether the output file is the input file: the same path, which it is
    when no output is given, or another path to the same file. *)
Definition inPlace (e : Env) (outputFile inputFile : string) : bool :=
  String.eqb outputFile inputFile || sameFile e outputFile inputFile.

(** The second argument of [replaceStream]: a callback that receives the
    whole match, or a replacement string. *)
Inductive Replacement : Type :=
| ByFunction (f : string -> string)
| ByString (text : string).

(** A stage of the pipe: the text that flows in to the text that flows out. *)
Definition Stage : Type := string -> string.

(** Modelled from the spec: [replaceStream] belongs to the replacestream
    package, which is not part of the repository.  Following sections 4.4 and
    9 of the specification, a stage is one global substitution over the whole
    document.  Building the stage compiles the pattern, which may throw.
    A replacement string is inserted as it is; one that holds a [$], which
    could refer to a capture, is left outside the model. *)
Definition replaceStream (search : string) (replace : Replacement) : Result Stage :=
  r <- RegExp.compile search ;;
  match replace with
  | ByFunction f => Ok (RegExp.replaceAll r f)
  | ByString text =>
      if Js.hasChar "$"%char text then Err NotModelled
      else Ok (RegExp.replaceAll r (fun _ => text))
  end.

(** The text a stage, or a chain of stages, produces from [doc]. *)
Definition through (st : Result Stage) (doc : string) : Result string :=
  f <- st ;; Ok (f doc).

Definition isQuote (c : ascii) : bool :=
  Ascii.eqb c "'"%char || Ascii.eqb c (ascii_of_nat 34).

Fixpoint noLineTerminator (s : string) : bool :=
  match s with
  | "" => true
  | String c t => negb (Js.isLineTerminator c) && noLineTerminator t
  end.

(** [pattern.replace(/^['"](.+)["']$/, '$1')]: one layer of surrounding quotes
    is dropped when something that [.+] matches lies between them. *)
Definition unwrapQuotes (pattern : string) : string :=
  match pattern with
  | String q rest =>
      match Js.rev rest "" with
      | String q' innerRev =>
          let inner := Js.rev innerRev "" in
          if isQuote q && isQuote q' && Js.truthy inner && noLineTerminator inner
          then inner else pattern
      | "" => pattern
      end
  | "" => pattern
  end.

Definition nonEmpty {A} (xs : list A) : bool :=
  match xs with [] => false | _ :: _ => true end.

(** ** postbuild.mjs *)

Module Mjs.

Definition getFullPath (e : Env) (file : string) : string :=
  pathJoin e (cwd e) file.

Definition appendETagSHAToFilename (e : Env) (filename : string) : Result string :=
  _ <- createHash e "sha" ;;
  content <- readFile e filename ;;
  Ok (filename ++ "?etag=" ++ shaHex e content).

Definition patternToFileNames (e : Env) (pattern extension : string)
  : Result (list string) :=
  if hasMagic e pattern then
    let unwrappedPattern := unwrapQuotes pattern in
    glob e unwrappedPattern
  else
    stats <- lstat e pattern ;;
    if isDirectory stats then
      fileNames <- readdir e pattern ;;
      Ok (map (fun file => pathJoin e pattern file)
              (filter (fun file => Js.endsWith file extension) fileNames))
    else if isFile stats then Ok [pattern]
    else Ok [].

(** The destructured argument [{ inline, ignore, etag }]. *)
Record TagOptions : Type := {
  inline : bool;               (* truthy *)
  ignore : option string;      (* typeof ignore === 'string' *)
  etag : bool                  (* etag != null *)
}.

(** The body of the loop over [fileNames] in [filePatternToScriptTags]. *)
Definition scriptTag (e : Env) (o : TagOptions) (fileName : string) : Result string :=
  if inline o then
    content <- readFile e fileName ;;
    Ok ("<script>" ++ content ++ "</script>")
  else
    let path := fileName in
    let path :=
      match ignore o with
      | Some ig => Js.slice (String.length ig) path
      | None => path
      end in
    path <- (if etag o then appendETagSHAToFilename e path else Ok path) ;;
    Ok ("<script src=" ++ Js.dq ++ path ++ Js.dq ++ "></script>").

Definition filePatternToScriptTags (e : Env) (pattern : string) (o : TagOptions)
  : Result (list string) :=
  fileNames <- patternToFileNames e pattern ".js" ;;
  mapM (scriptTag e o) fileNames.

(** The body of the loop over [fileNames] in [filePatternToStyleTags]. *)
Definition styleTag (e : Env) (o : TagOptions) (fileName : string) : Result string :=
  if inline o then
    content <- readFile e fileName ;;
    Ok ("<style>" ++ content ++ "</style>")
  else
    let path := fileName in
    let path :=
      match ignore o with
      | Some ig => Js.slice (String.length ig) path
      | None => path
      end in
    path <- (if etag o then appendETagSHAToFilename e path else Ok path) ;;
    Ok ("<link rel=" ++ Js.dq ++ "stylesheet" ++ Js.dq ++ " href=" ++ Js.dq ++ path
          ++ Js.dq ++ ">").

Definition filePatternToStyleTags (e : Env) (pattern : string) (o : TagOptions)
  : Result (list string) :=
  fileNames <- patternToFileNames e pattern ".css" ;;
  mapM (styleTag e o) fileNames.

(** The options object of commander; this file declares neither [--async]
    nor [--defer]. *)
Record Options : Type := {
  input : option string;
  output : option string;
  css : option string;
  js : option string;
  remove : option string;
  ignoreOpt : option string;
  hash : bool;
  etagOpt : bool;
  inlineOpt : bool
}.

Definition tagOptions (o : Options) : TagOptions :=
  {| inline := inlineOpt o; ignore := ignoreOpt o; etag := etagOpt o |}.

(** [let removeCondition = ''; if (options.remove) { ... split(':').pop() }] *)
Definition removeCondition (remove : option string) : string :=
  match remove with
  | Some r => if Js.truthy r then Js.splitPop ":"%char r else ""
  | None => ""
  end.

(** [let revision = ''; if (options.hash) { ... .toString().trim() }] *)
Definition revision (e : Env) (hash : bool) : Result string :=
  if hash then
    (out <- exec e "git rev-parse HEAD" ;; Ok (Js.trim (toString out)))
  else Ok "".

(** The four stages of the pipe, in the order of the source. *)
Definition injectJs (jsFiles : list string) : Result Stage :=
  replaceStream "(<!-- inject:js -->)([\s\S]*?)(<!-- endinject -->)"
    (ByFunction (fun m0 => if nonEmpty jsFiles then Js.join Js.nl jsFiles else m0)).

Definition injectCss (cssFiles : list string) : Result Stage :=
  replaceStream "(<!-- inject:css -->)([\s\S]*?)(<!-- endinject -->)"
    (ByFunction (fun m0 => if nonEmpty cssFiles then Js.join Js.nl cssFiles else m0)).

Definition injectGitHash (revision : string) : Result Stage :=
  replaceStream "(<!-- inject:git-hash -->)"
    (ByString ("<!-- " ++ revision ++ " -->")).

Definition removeRegions (removeCondition : string) : Result Stage :=
  replaceStream
    ("(<!-- remove:" ++ removeCondition ++ " -->)([\s\S]*?)(<!-- endremove -->)")
    (ByString "").

(** [createReadStream(inputFile).pipe(..).pipe(..).pipe(..).pipe(..)]: the
    stages are built first, then the text flows through them in order. *)
Definition transform (jsFiles cssFiles : list string)
  (revision removeCondition : string) : Result Stage :=
  s1 <- injectJs jsFiles ;;
  s2 <- injectCss cssFiles ;;
  s3 <- injectGitHash revision ;;
  s4 <- removeRegions removeCondition ;;
  Ok (fun doc => s4 (s3 (s2 (s1 doc)))).

(** An option that is present and truthy. *)
Definition given (o : option string) : option string :=
  match o with
  | Some s => if Js.truthy s then Some s else None
  | None => None
  end.

(** [handleError(message)]: the run ends there. *)
Definition handleError (message : string) : Outcome := Exit 1 message.

Definition main (e : Env) (options : Options) : Outcome :=
  match input options with
  | None => handleError "Please specify an input file"
  | Some inp =>
      let inputFile := getFullPath e inp in
      match lstat e inputFile with
      | Err _ => handleError ("File '" ++ inputFile ++ "' not found")
      | Ok stat =>
          if isDirectory stat then
            handleError
              ("'" ++ inputFile ++ "' is a directory, please specify an input file")
          else if negb (isFile stat) then
            handleError ("File '" ++ inputFile ++ "' not found")
          else
            let outputFile :=
              match given (output options) with
              | Some out => getFullPath e out
              | None => inputFile
              end in
            let jsStep : Outcome + list string :=
              match given (js options) with
              | Some pattern =>
                  match filePatternToScriptTags e pattern (tagOptions options) with
                  | Ok tags => inr tags
                  | Err _ =>
                      (* handleError(`File or folder '${js}' not found`): the
                         template reads [js], an identifier with no binding
                         in the module, before handleError is entered *)
                      inl (Uncaught (ReferenceError "js"))
                  end
              | None => inr []
              end in
            match jsStep with
            | inl stop => stop
            | inr jsFiles =>
                let cssStep : Outcome + list string :=
                  match given (css options) with
                  | Some pattern =>
                      match filePatternToStyleTags e pattern (tagOptions options) with
                      | Ok tags => inr tags
                      | Err _ =>
                          (* handleError(`File or folder '${css}' not found`):
                             [css] has no binding either *)
                          inl (Uncaught (ReferenceError "css"))
                      end
                  | None => inr []
                  end in
                match cssStep with
                | inl stop => stop
                | inr cssFiles =>
                    match revision e (hash options) with
                    | Err x => Uncaught x
                    | Ok rev =>
                        match
                          transform jsFiles cssFiles rev
                            (removeCondition (remove options))
                        with
                        | Err NotModelled => OutsideModel
                        | Err x => Uncaught x
                        | Ok pipe =>
                            (* createWriteStream(outputFile) opens the file
                               with the flag 'w', which empties it, before
                               the read stream delivers its first chunk: a
                               run in place reads nothing *)
                            match
                              if inPlace e outputFile inputFile then Ok ""
                              else readFile e inputFile
                            with
                            | Ok doc => Written outputFile (pipe doc)
                            | Err x => Uncaught x
                            end
                        end
                    end
                end
            end
      end
  end.

End Mjs.

(** ** The CommonJS sibling (second source file) *)

Module Cjs.

Definition getFullPath (e : Env) (file : string) : string :=
  pathJoin e (cwd e) file.

Definition appendETagSHAToFilename (e : Env) (filename : string) : Result string :=
  _ <- createHash e "sha" ;;
  content <- readFile e filename ;;
  Ok (filename ++ "?etag=" ++ shaHex e content).

Definition patternToFileNames (e : Env) (pattern extension : string)
  : Result (list string) :=
  if hasMagic e pattern then
    let unwrappedPattern := unwrapQuotes pattern in
    glob e unwrappedPattern
  else
    stats <- lstat e pattern ;;
    if isDirectory stats then
      fileNames <- readdir e pattern ;;
      Ok (map (fun file => pathJoin e pattern file)
              (filter (fun file => Js.endsWith file extension) fileNames))
    else if isFile stats then Ok [pattern]
    else Ok [].

(** The destructured argument [{ async, defer, inline, ignore, etag }]. *)
Record ScriptOptions : Type := {
  async : bool;
  defer : bool;
  inline : bool;
  ignore : option string;
  etag : bool
}.

(** [const attributes = [`src="${path}"`]; if (async) ... else if (defer) ...] *)
Definition attributes (o : ScriptOptions) (path : string) : list string :=
  let attributes := ["src=" ++ Js.dq ++ path ++ Js.dq] in
  if async o then attributes ++ ["async"]
  else if defer o then attributes ++ ["defer"]
  else attributes.

(** The body of the loop over [fileNames] in [filePatternToScriptTags]. *)
Definition scriptTag (e : Env) (o : ScriptOptions) (fileName : string)
  : Result string :=
  if inline o then
    content <- readFile e fileName ;;
    Ok ("<script>" ++ content ++ "</script>")
  else
    let path := fileName in
    let path :=
      match ignore o with
      | Some ig => Js.slice (String.length ig) path
      | None => path
      end in
    path <- (if etag o then appendETagSHAToFilename e path else Ok path) ;;
    Ok ("<script " ++ Js.join " " (attributes o path) ++ "></script>").

Definition filePatternToScriptTags (e : Env) (pattern : string) (o : ScriptOptions)
  : Result (list string) :=
  fileNames <- patternToFileNames e pattern ".js" ;;
  mapM (scriptTag e o) fileNames.

(** The destructured argument [{ inline, ignore, etag }]. *)
Record StyleOptions : Type := {
  sInline : bool;
  sIgnore : option string;
  sEtag : bool
}.

(** The body of the loop over [fileNames] in [filePatternToStyleTags]. *)
Definition styleTag (e : Env) (o : StyleOptions) (fileName : string) : Result string :=
  if sInline o then
    content <- readFile e fileName ;;
    Ok ("<style>" ++ content ++ "</style>")
  else
    let path := fileName in
    let path :=
      match sIgnore o with
      | Some ig => Js.slice (String.length ig) path
      | None => path
      end in
    path <- (if sEtag o then appendETagSHAToFilename e path else Ok path) ;;
    Ok ("<link rel=" ++ Js.dq ++ "stylesheet" ++ Js.dq ++ " href=" ++ Js.dq ++ path
          ++ Js.dq ++ ">").

Definition filePatternToStyleTags (e : Env) (pattern : string) (o : StyleOptions)
  : Result (list string) :=
  fileNames <- patternToFileNames e pattern ".css" ;;
  mapM (styleTag e o) fileNames.

(** The options object of commander. *)
Record Options : Type := {
  input : option string;
  output : option string;
  css : option string;
  js : option string;
  remove : option string;
  ignoreOpt : option string;
  hash : bool;
  etagOpt : bool;
  inlineOpt : bool;
  asyncOpt : bool;
  deferOpt : bool
}.

Definition scriptOptions (o : Options) : ScriptOptions :=
  {| async := asyncOpt o; defer := deferOpt o; inline := inlineOpt o;
     ignore := ignoreOpt o; etag := etagOpt o |}.

Definition styleOptions (o : Options) : StyleOptions :=
  {| sInline := inlineOpt o; sIgnore := ignoreOpt o; sEtag := etagOpt o |}.

Definition removeCondition (remove : option string) : string :=
  match remove with
  | Some r => if Js.truthy r then Js.splitPop ":"%char r else ""
  | None => ""
  end.

Definition revision (e : Env) (hash : bool) : Result string :=
  if hash then
    (out <- exec e "git rev-parse HEAD" ;; Ok (Js.trim (toString out)))
  else Ok "".

Definition injectJs (jsFiles : list string) : Result Stage :=
  replaceStream "(<!-- inject:js -->)([\s\S]*?)(<!-- endinject -->)"
    (ByFunction (fun m0 => if nonEmpty jsFiles then Js.join Js.nl jsFiles else m0)).

Definition injectCss (cssFiles : list string) : Result Stage :=
  replaceStream "(<!-- inject:css -->)([\s\S]*?)(<!-- endinject -->)"
    (ByFunction (fun m0 => if nonEmpty cssFiles then Js.join Js.nl cssFiles else m0)).

Definition injectGitHash (revision : string) : Result Stage :=
  replaceStream "(<!-- inject:git-hash -->)"
    (ByString ("<!-- " ++ revision ++ " -->")).

Definition removeRegions (removeCondition : string) : Result Stage :=
  replaceStream
    ("(<!-- remove:" ++ removeCondition ++ " -->)([\s\S]*?)(<!-- endremove -->)")
    (ByString "").

Definition transform (jsFiles cssFiles : list string)
  (revision removeCondition : string) : Result Stage :=
  s1 <- injectJs jsFiles ;;
  s2 <- injectCss cssFiles ;;
  s3 <- injectGitHash revision ;;
  s4 <- removeRegions removeCondition ;;
  Ok (fun doc => s4 (s3 (s2 (s1 doc)))).

Definition given (o : option string) : option string :=
  match o with
  | Some s => if Js.truthy s then Some s else None
  | None => None
  end.

(** [handleError(message)] inside a [catch]: the run ends there. *)
Definition handleError (message : string) : Outcome := Exit 1 message.

Definition main (e : Env) (options : Options) : Outcome :=
  match input options with
  | None => handleError "Please specify an input file"
  | Some inp =>
      let inputFile := getFullPath e inp in
      match lstat e inputFile with
      | Err _ => handleError ("File '" ++ inputFile ++ "' not found")
      | Ok stat =>
          if isDirectory stat then
            handleError
              ("'" ++ inputFile ++ "' is a directory, please specify an input file")
          else if negb (isFile stat) then
            handleError ("File '" ++ inputFile ++ "' not found")
          else
            let outputFile :=
              match given (output options) with
              | Some out => getFullPath e out
              | None => inputFile
              end in
            let jsStep : Outcome + list string :=
              match given (js options) with
              | Some pattern =>
                  match filePatternToScriptTags e pattern (scriptOptions options) with
                  | Ok tags => inr tags
                  | Err _ =>
                      inl (handleError ("File or folder '" ++ pattern ++ "' not found"))
                  end
              | None => inr []
              end in
            match jsStep with
            | inl stop => stop
            | inr jsFiles =>
                let cssStep : Outcome + list string :=
                  match given (css options) with
                  | Some pattern =>
                      match filePatternToStyleTags e pattern (styleOptions options) with
                      | Ok tags => inr tags
                      | Err _ =>
                          inl (handleError
                                 ("File or folder '" ++ pattern ++ "' not found"))
                      end
                  | None => inr []
                  end in
                match cssStep with
                | inl stop => stop
                | inr cssFiles =>
                    match revision e (hash options) with
                    | Err x => Uncaught x
                    | Ok rev =>
                        match
                          transform jsFiles cssFiles rev
                            (removeCondition (remove options))
                        with
                        | Err NotModelled => OutsideModel
                        | Err x => Uncaught x
                        | Ok pipe =>
                            (* createWriteStream(outputFile) opens the file
                               with the flag 'w', which empties it, before
                               the read stream delivers its first chunk: a
                               run in place reads nothing *)
                            match
                              if inPlace e outputFile inputFile then Ok ""
                              else readFile e inputFile
                            with
                            | Ok doc => Written outputFile (pipe doc)
                            | Err x => Uncaught x
                            end
                        end
                    end
                end
            end
      end
  end.

End Cjs.

(** The options of the CommonJS file as the ES module sees them: the same
    object without [async] and [defer]. *)
Definition withoutAsyncDefer (o : Cjs.Options) : Mjs.Options :=
  {| Mjs.input := Cjs.input o; Mjs.output := Cjs.output o; Mjs.css := Cjs.css o;
     Mjs.js := Cjs.js o; Mjs.remove := Cjs.remove o;
     Mjs.ignoreOpt := Cjs.ignoreOpt o; Mjs.hash := Cjs.hash o;
     Mjs.etagOpt := Cjs.etagOpt o; Mjs.inlineOpt := Cjs.inlineOpt o |}.

(** The environment [e] with another [readFile]. *)
Definition withReadFile (e : Env) (read : string -> Result string) : Env :=
  {| cwd := cwd e; pathJoin := pathJoin e; hasMagic := hasMagic e; glob := glob e;
     lstat := lstat e; readdir := readdir e; readFile := read;
     createHash := createHash e; shaHex := shaHex e; exec := exec e;
     sameFile := sameFile e |}.

(** Whether a text begins, or ends, with white space. *)
Definition startsWithSpace (s : string) : bool :=
  match s with
  | "" => false
  | String c _ => Js.isSpace c
  end.

Definition endsWithSpace (s : string) : bool := startsWithSpace (Js.rev s "").

(** A text made of white space only. *)
Fixpoint allSpace (s : string) : bool :=
  match s with
  | "" => true
  | String c t => Js.isSpace c && allSpace t
  end.

(** ** Vocabulary of the properties *)

Module Text.

(** [cut p s]: the text before and after the first occurrence of [p] in
    [s], if there is one. *)
Fixpoint cut (p s : string) : option (string * string) :=
  match Js.stripPrefix p s with
  | Some rest => Some ("", rest)
  | None =>
      match s with
      | "" => None
      | String c t =>
          match cut p t with
          | Some (before, rest) => Some (String c before, rest)
          | None => None
          end
      end
  end.

Definition occurs (p s : string) : bool :=
  match cut p s with Some _ => true | None => false end.

(** The characters that [new RegExp] reads as syntax, or that the fragment
    of [RegExp.compile] leaves out. *)
Definition isMeta (c : ascii) : bool :=
  existsb (Ascii.eqb c) (list_ascii_of_string "()|*+?.\[]^${}").

(** A text that a pattern matches literally, character for character. *)
Fixpoint plain (s : string) : bool :=
  match s with
  | "" => true
  | String c t => negb (isMeta c) && plain t
  end.

End Text.

(** [RegionStage start stop repl st]: the stage [st] is built without error
    and rewrites, from left to right, each span that runs from the first
    [start] marker found to the first [stop] marker after it, both markers
    included, into [repl] of that span; the text before the span is kept, the
    text after it is processed in the same way, and a text with no such span
    is returned as it is. *)
Definition RegionStage (start stop : string) (repl : string -> string)
  (st : Result Stage) : Prop :=
  exists g : Stage,
    st = Ok g /\
    forall doc,
      g doc =
        match Text.cut start doc with
        | Some (before, rest) =>
            match Text.cut stop rest with
            | Some (body, after) =>
                before ++ repl (start ++ body ++ stop) ++ g after
            | None => doc
            end
        | None => doc
        end.

(** [MarkerStage marker text st]: the stage [st] is built without error and
    rewrites every successive occurrence of [marker] into [text]. *)
Definition MarkerStage (marker text : string) (st : Result Stage) : Prop :=
  exists g : Stage,
    st = Ok g /\
    forall doc,
      g doc =
        match Text.cut marker doc with
        | Some (before, after) => before ++ text ++ g after
        | None => doc
        end.

(** The last colon-separated token of the [--remove] argument, the empty
    string when the argument is absent. *)
Definition LastToken (arg : option string) (tok : string) : Prop :=
  match arg with
  | None => tok = ""
  | Some a =>
      Js.hasChar ":"%char tok = false /\
      (a = tok \/ exists before, a = before ++ ":" ++ tok)
  end.

(** [EmittedPath e ignore etag file path]: [path] is what linked mode emits
    for the resolved [file]: the file path without its first [ignore.length]
    characters, followed, with [--etag], by [?etag=] and the digest of what
    is read at that sliced path, which requires the digest to be supported
    and the read to succeed. *)
Definition EmittedPath (e : Env) (ignore : option string) (etag : bool)
  (file path : string) : Prop :=
  let sliced :=
    match ignore with
    | Some ig => Js.slice (String.length ig) file
    | None => file
    end in
  if etag then
    createHash e "sha" = Ok tt /\
    exists content,
      readFile e sliced = Ok content /\
      path = sliced ++ "?etag=" ++ shaHex e content
  else path = sliced.

(** ** Small environments for the examples *)

Module Demo.

Inductive Node : Type :=
| NFile (content : string)
| NDir (entries : list string)
| NOther.

Fixpoint lookup (nodes : list (string * Node)) (path : string) : option Node :=
  match nodes with
  | [] => None
  | (p, n) :: rest => if String.eqb p path then Some n else lookup rest path
  end.

(** An environment over a table of paths.  [pathJoin] puts a slash
    between its arguments, which is what [path.join] returns for the
    clean segments the examples use; no example has a glob pattern.  The
    digest is supported, the table has no links, and git prints a commit
    identifier. *)
Definition env (nodes : list (string * Node)) : Env :=
  {| cwd := "/work";
     pathJoin := fun a b => a ++ "/" ++ b;
     hasMagic := fun p => Js.hasChar "*"%char p;
     glob := fun _ => Ok [];
     lstat := fun p =>
       match lookup nodes p with
       | Some (NFile _) => Ok StFile
       | Some (NDir _) => Ok StDirectory
       | Some NOther => Ok StOther
       | None => Err (SystemError "ENOENT" p)
       end;
     readdir := fun p =>
       match lookup nodes p with
       | Some (NDir entries) => Ok entries
       | Some _ => Err (SystemError "ENOTDIR" p)
       | None => Err (SystemError "ENOENT" p)
       end;
     readFile := fun p =>
       match lookup nodes p with
       | Some (NFile content) => Ok content
       | Some (NDir _) => Err (SystemError "EISDIR" p)
       | Some NOther => Err (SystemError "EINVAL" p)
       | None => Err (SystemError "ENOENT" p)
       end;
     createHash := fun _ => Ok tt;
     shaHex := fun content => "digest-of(" ++ content ++ ")";
     exec := fun _ => Ok {| stdout := "57cf80ae" ++ Js.nl; stderr := "" |};
     sameFile := String.eqb |}.

(** A template with every kind of marker, and one region whose remove
    condition is empty. *)
Definition template : string :=
  "<!-- inject:css -->C<!-- endinject -->" ++
  "<!-- remove:development -->D<!-- endremove -->" ++
  "<!-- inject:js -->J<!-- endinject -->" ++
  "<!-- remove: -->E<!-- endremove -->" ++
  "<!-- inject:git-hash -->".

Definition site : Env :=
  env [ ("/work/index.html", NFile template);
        ("dist", NDir ["app.js"; "app.css"; "notes.txt"; "vendor.js"]);
        ("dist/app.js", NFile "A");
        ("dist/app.css", NFile "B");
        ("dist/vendor.js", NFile "V");
        ("link", NOther) ].


(** The same site with another [app.js] in the working directory. *)
Definition siteWithStray : Env :=
  env [ ("/work/index.html", NFile template);
        ("dist/app.js", NFile "A");
        ("app.js", NFile "stray") ].

Definition mjsOptions : Mjs.Options :=
  {| Mjs.input := Some "index.html"; Mjs.output := Some "out.html";
     Mjs.css := None; Mjs.js := None; Mjs.remove := None;
     Mjs.ignoreOpt := None; Mjs.hash := false; Mjs.etagOpt := false;
     Mjs.inlineOpt := false |}.

Definition cjsOptions : Cjs.Options :=
  {| Cjs.input := Some "index.html"; Cjs.output := Some "out.html";
     Cjs.css := None; Cjs.js := None; Cjs.remove := None;
     Cjs.ignoreOpt := None; Cjs.hash := false; Cjs.etagOpt := false;
     Cjs.inlineOpt := false; Cjs.asyncOpt := false; Cjs.deferOpt := false |}.


(** A template without an empty-condition remove region. *)
Definition page : string :=
  "<p><!-- inject:git-hash --></p>" ++
  "<!-- remove:production -->P<!-- endremove -->" ++
  "<!-- inject:git-hash -->".


(** Linked mode with [--ignore dist/] and [--etag]. *)
Definition stripAndTag : Mjs.TagOptions :=
  {| Mjs.inline := false; Mjs.ignore := Some "dist/"; Mjs.etag := true |}.

Definition stripAndTagScript : Cjs.ScriptOptions :=
  {| Cjs.async := false; Cjs.defer := false; Cjs.inline := false;
     Cjs.ignore := Some "dist/"; Cjs.etag := true |}.

Definition mjsWithJs (pattern : string) : Mjs.Options :=
  {| Mjs.input := Some "index.html"; Mjs.output := Some "out.html";
     Mjs.css := None; Mjs.js := Some pattern; Mjs.remove := None;
     Mjs.ignoreOpt := None; Mjs.hash := false; Mjs.etagOpt := false;
     Mjs.inlineOpt := false |}.

Definition mjsWithCss (pattern : string) : Mjs.Options :=
  {| Mjs.input := Some "index.html"; Mjs.output := Some "out.html";
     Mjs.css := Some pattern; Mjs.js := None; Mjs.remove := None;
     Mjs.ignoreOpt := None; Mjs.hash := false; Mjs.etagOpt := false;
     Mjs.inlineOpt := false |}.

Definition cjsWithJs (pattern : string) : Cjs.Options :=
  {| Cjs.input := Some "index.html"; Cjs.output := Some "out.html";
     Cjs.css := None; Cjs.js := Some pattern; Cjs.remove := None;
     Cjs.ignoreOpt := None; Cjs.hash := false; Cjs.etagOpt := false;
     Cjs.inlineOpt := false; Cjs.asyncOpt := false; Cjs.deferOpt := false |}.

Definition cjsWithCss (pattern : string) : Cjs.Options :=
  {| Cjs.input := Some "index.html"; Cjs.output := Some "out.html";
     Cjs.css := Some pattern; Cjs.js := None; Cjs.remove := None;
     Cjs.ignoreOpt := None; Cjs.hash := false; Cjs.etagOpt := false;
     Cjs.inlineOpt := false; Cjs.asyncOpt := false; Cjs.deferOpt := false |}.

(** Linked mode with both [--async] and [--defer]. *)
Definition asyncAndDefer : Cjs.ScriptOptions :=
  {| Cjs.async := true; Cjs.defer := true; Cjs.inline := false;
     Cjs.ignore := None; Cjs.etag := false |}.

End Demo.

(** ** The shapes of the compiled patterns *)

Module Shape.
Import RegExp.

(** The characters of [p] in sequence, then [r]. *)
Fixpoint litThen (p : string) (r : regex) : regex :=
  match p with
  | "" => r
  | String c t => Seq (Cset (CsChar c)) (litThen t r)
  end.

(** The class [[\s\S]] as the parser builds it. *)
Definition anyChar : charset := CsUnion (CsUnion CsNone CsSpace) CsNonSpace.

(** [(start)([\s\S]*?)(stop)] *)
Definition regionRegex (start stop : string) : regex :=
  Seq (Group (litThen start Eps))
      (Seq (Group (Seq (Star false (Cset anyChar)) Eps))
           (Seq (Group (litThen stop Eps)) Eps)).

(** [(marker)] *)
Definition markerRegex (marker : string) : regex :=
  Seq (Group (litThen marker Eps)) Eps.

(** The terms of a frame after the plain characters of [p] are read. *)
Fixpoint pushPlain (ts : list term) (p : string) : list term :=
  match p with
  | "" => ts
  | String c t => pushPlain ((Cset (CsChar c), None) :: ts) t
  end.

(** The answer of [k] on the longest suffix of [s] that it accepts. *)
Fixpoint firstSuffix (A : Type) (k : string -> option A) (s : string) : option A :=
  match k s with
  | Some x => Some x
  | None =>
      match s with
      | "" => None
      | String _ t => firstSuffix k t
      end
  end.

End Shape.

(** * Properties *)

(** ** Strings *)

Section StringFacts.

Lemma append_nil_r (s : string) : s ++ "" = s.
Proof. induction s as [|c s IH]; simpl; [reflexivity | now rewrite IH]. Qed.

Lemma append_assoc (a b c : string) : (a ++ b) ++ c = a ++ b ++ c.
Proof. induction a as [|x a IH]; simpl; [reflexivity | now rewrite IH]. Qed.

Lemma length_append (a b : string) :
  String.length (a ++ b) = String.length a + String.length b.
Proof. induction a as [|x a IH]; simpl; [reflexivity | now rewrite IH]. Qed.

Lemma append_inv_head (a b c : string) : a ++ b = a ++ c -> b = c.
Proof.
  induction a as [|x a IH]; simpl; intro H; [assumption|].
  injection H as H. auto.
Qed.

Lemma stripPrefix_append (p r : string) : Js.stripPrefix p (p ++ r) = Some r.
Proof.
  induction p as [|c p IH]; simpl.
  - destruct r; reflexivity.
  - now rewrite Ascii.eqb_refl.
Qed.

Lemma stripPrefix_Some (p s r : string) :
  Js.stripPrefix p s = Some r -> s = p ++ r.
Proof.
  revert s; induction p as [|c p IH]; intros s H.
  - destruct s; simpl in H; injection H as <-; reflexivity.
  - destruct s as [|d s]; simpl in H; [discriminate|].
    destruct (Ascii.eqb_spec c d) as [->|]; [|discriminate].
    simpl. now rewrite (IH _ H).
Qed.

Lemma take_slice (n : nat) (s : string) : Js.take n s ++ Js.slice n s = s.
Proof.
  revert s; induction n as [|n IH]; intros [|c s]; simpl; try reflexivity.
  now rewrite IH.
Qed.

Lemma take_append (a b : string) : Js.take (String.length a) (a ++ b) = a.
Proof.
  induction a as [|c a IH]; simpl.
  - destruct b; reflexivity.
  - now rewrite IH.
Qed.

Lemma slice_append (a b : string) : Js.slice (String.length a) (a ++ b) = b.
Proof. induction a as [|c a IH]; simpl; [reflexivity | assumption]. Qed.

Lemma slice_all (n : nat) (s : string) :
  String.length s <= n -> Js.slice n s = "".
Proof.
  revert s; induction n as [|n IH]; intros [|c s] H; simpl in *;
    try reflexivity; try lia.
  apply IH. lia.
Qed.

Lemma slice_0 (s : string) : Js.slice 0 s = s.
Proof. destruct s; reflexivity. Qed.

End StringFacts.

(** ** First occurrences *)

Section CutFacts.

Lemma cut_sound (p s a b : string) :
  Text.cut p s = Some (a, b) -> s = a ++ p ++ b.
Proof.
  revert a b; induction s as [|c s IH]; intros a b H; simpl in H.
  - destruct (Js.stripPrefix p "") eqn:E; [|discriminate].
    injection H as <- <-. simpl. now apply stripPrefix_Some.
  - destruct (Js.stripPrefix p (String c s)) eqn:E.
    + injection H as <- <-. simpl. now apply stripPrefix_Some.
    + destruct (Text.cut p s) as [[a' b']|] eqn:C; [|discriminate].
      injection H as <- <-. simpl. now rewrite (IH _ _ eq_refl).
Qed.

(** No occurrence of [p] starts inside the part before the cut. *)
Lemma cut_first (p s a b : string) :
  Text.cut p s = Some (a, b) ->
  forall a1 c a2, a = a1 ++ String c a2 ->
    Js.stripPrefix p (String c a2 ++ p ++ b) = None.
Proof.
  revert a b; induction s as [|d s IH]; intros a b H a1 c a2 Ha; simpl in H.
  - destruct (Js.stripPrefix p ""); [|discriminate].
    injection H as <- <-. destruct a1; discriminate.
  - destruct (Js.stripPrefix p (String d s)) eqn:E.
    + injection H as <- <-. destruct a1; discriminate.
    + destruct (Text.cut p s) as [[a' b']|] eqn:C; [|discriminate].
      injection H as <- <-.
      destruct a1 as [|x a1]; simpl in Ha; injection Ha as -> ->.
      * rewrite <- E. f_equal. apply cut_sound in C. now rewrite C.
      * eapply IH; reflexivity.
Qed.

Lemma cut_None_suffix (p a t : string) :
  Text.cut p (a ++ t) = None -> Text.cut p t = None.
Proof.
  induction a as [|c a IH]; simpl; [trivial|].
  destruct (Js.stripPrefix p (String c (a ++ t))); [discriminate|].
  destruct (Text.cut p (a ++ t)) as [[? ?]|]; [discriminate|]. auto.
Qed.

Lemma cut_None_prefix (p s : string) :
  Text.cut p s = None -> Js.stripPrefix p s = None.
Proof.
  destruct s; simpl; destruct (Js.stripPrefix p _); congruence.
Qed.

Lemma firstSuffix_cut (p s : string) :
  Shape.firstSuffix (Js.stripPrefix p) s = option_map snd (Text.cut p s).
Proof.
  induction s as [|c s IH]; simpl.
  - destruct (Js.stripPrefix p ""); reflexivity.
  - destruct (Js.stripPrefix p (String c s)); [reflexivity|].
    rewrite IH. destruct (Text.cut p s) as [[? ?]|]; reflexivity.
Qed.

End CutFacts.

(** ** The matcher on the shapes of the pipeline *)

Ltac change_lhs t :=
  match goal with |- _ = ?R => change (t = R) end.

Section MatcherFacts.
Import RegExp Shape.

Lemma rmatch_litThen (A : Type) (p : string) (r : regex) (s : string)
  (k : string -> option A) :
  rmatch (litThen p r) s k =
    match Js.stripPrefix p s with
    | Some rest => rmatch r rest k
    | None => None
    end.
Proof.
  revert s; induction p as [|c p IH]; intro s.
  - destruct s; reflexivity.
  - destruct s as [|d s]; simpl; [reflexivity|].
    destruct (Ascii.eqb c d); [apply IH | reflexivity].
Qed.

Lemma csMem_anyChar (c : ascii) : csMem anyChar c = true.
Proof. unfold anyChar; simpl. now destruct (Js.isSpace c). Qed.

Lemma firstSuffix_ext (A : Type) (k k' : string -> option A) (s : string) :
  (forall t, k t = k' t) -> firstSuffix k s = firstSuffix k' s.
Proof.
  intro H; induction s as [|c s IH]; simpl; rewrite H; [reflexivity|].
  now rewrite IH.
Qed.

(** A lazy [[\s\S]*] hands the continuation the suffixes of the input, the
    longest first. *)
Lemma rmatch_lazy_any (A : Type) (s : string) (k : string -> option A) :
  rmatch (Star false (Cset anyChar)) s k = firstSuffix k s.
Proof.
  cbn [rmatch].
  match goal with |- ?L (String.length s) s = _ => set (loop := L) end.
  assert (H : forall n t, String.length t <= n -> loop n t = firstSuffix k t).
  { induction n as [|n IH]; intros t Ht.
    - destruct t; [|simpl in Ht; lia]. simpl. now destruct (k "").
    - destruct t as [|c t].
      + simpl. now destruct (k "").
      + cbn [loop firstSuffix]. destruct (k (String c t)); [reflexivity|].
        rewrite csMem_anyChar.
        assert (E : Nat.ltb (String.length t) (String.length (String c t)) = true)
          by (apply Nat.ltb_lt; simpl; lia).
        rewrite E. apply IH. simpl in Ht. lia. }
  apply H. lia.
Qed.

Lemma matchAt_region (start stop s : string) :
  matchAt (regionRegex start stop) s =
    match Js.stripPrefix start s with
    | Some rest => firstSuffix (Js.stripPrefix stop) rest
    | None => None
    end.
Proof.
  unfold matchAt, regionRegex.
  set (tail := Seq (Group (Seq (Star false (Cset anyChar)) Eps))
                   (Seq (Group (litThen stop Eps)) Eps)).
  change_lhs (rmatch (litThen start Eps) s
                (fun s1 => rmatch tail s1 (fun rest => Some rest))).
  rewrite rmatch_litThen. destruct (Js.stripPrefix start s) as [rest|]; [|reflexivity].
  change_lhs (rmatch (Star false (Cset anyChar)) rest
                (fun s2 => rmatch (litThen stop Eps) s2 (fun s3 => Some s3))).
  rewrite rmatch_lazy_any. apply firstSuffix_ext. intro t.
  rewrite rmatch_litThen. now destruct (Js.stripPrefix stop t).
Qed.

Lemma matchAt_marker (marker s : string) :
  matchAt (markerRegex marker) s = Js.stripPrefix marker s.
Proof.
  unfold matchAt, markerRegex.
  change_lhs (rmatch (litThen marker Eps) s (fun s1 => Some s1)).
  rewrite rmatch_litThen. now destruct (Js.stripPrefix marker s).
Qed.

End MatcherFacts.

(** ** Global replacement *)

Section ReplaceFacts.
Import RegExp.
Variable r : regex.
Variable f : string -> string.

Lemma replaceFrom_skip (n : nat) (s : string) :
  replaceFrom r f n s = replaceAll r f (Js.slice n s).
Proof.
  unfold replaceAll. revert n; induction s as [|c s IH]; intros [|n];
    try reflexivity.
  simpl. apply IH.
Qed.

Lemma replaceAll_miss (c : ascii) (t : string) :
  matchAt r (String c t) = None ->
  replaceAll r f (String c t) = String c (replaceAll r f t).
Proof. unfold replaceAll; simpl. now intros ->. Qed.

Lemma replaceAll_hit (m rest : string) :
  m <> "" ->
  matchAt r (m ++ rest) = Some rest ->
  replaceAll r f (m ++ rest) = f m ++ replaceAll r f rest.
Proof.
  destruct m as [|c m]; [congruence|]. intros _ H.
  unfold replaceAll. cbn [append replaceFrom]. cbn [append] in H. rewrite H.
  replace (String.length (String c (m ++ rest)) - String.length rest)
    with (S (String.length m))
    by (cbn [String.length]; rewrite length_append; lia).
  rewrite replaceFrom_skip, slice_append.
  change (Js.take (S (String.length m)) (String c (m ++ rest)))
    with (String c (Js.take (String.length m) (m ++ rest))).
  now rewrite take_append.
Qed.

Lemma replaceAll_before (pre t : string) :
  (forall a1 c a2, pre = a1 ++ String c a2 -> matchAt r (String c a2 ++ t) = None) ->
  replaceAll r f (pre ++ t) = pre ++ replaceAll r f t.
Proof.
  induction pre as [|c pre IH]; intro H; [reflexivity|].
  cbn [append]. rewrite replaceAll_miss.
  - f_equal. apply IH. intros a1 d a2 ->. apply (H (String c a1)). reflexivity.
  - apply (H "" c pre). reflexivity.
Qed.

Lemma replaceAll_none (s : string) :
  (forall a c t, s = a ++ String c t -> matchAt r (String c t) = None) ->
  replaceAll r f s = s.
Proof.
  intro H. rewrite <- (append_nil_r s) at 1.
  rewrite replaceAll_before; [apply append_nil_r|].
  intros a1 c a2 ->. rewrite append_nil_r. now apply (H a1).
Qed.

Lemma replaceFrom_identity (n : nat) (s : string) :
  (forall m, f m = m) -> replaceFrom r f n s = Js.slice n s.
Proof.
  intro Hf. revert n; induction s as [|c s IH]; intros [|n]; try reflexivity.
  - cbn [replaceFrom Js.slice].
    destruct (matchAt r (String c s)) as [rest|]; [|now rewrite IH, slice_0].
    destruct (String.length (String c s) - String.length rest) as [|k];
      [now rewrite IH, slice_0|].
    rewrite Hf, IH.
    change (Js.take (S k) (String c s)) with (String c (Js.take k s)).
    cbn [append]. now rewrite take_slice.
  - simpl. apply IH.
Qed.

Lemma replaceAll_identity (s : string) :
  (forall m, f m = m) -> replaceAll r f s = s.
Proof. intro Hf. unfold replaceAll. now rewrite replaceFrom_identity, slice_0. Qed.

End ReplaceFacts.

(** Two ways to split one text meet in a common piece. *)
Lemma append_eq_split (a b c d : string) :
  a ++ b = c ++ d ->
  (exists x, c = a ++ x /\ b = x ++ d) \/ (exists x, a = c ++ x /\ d = x ++ b).
Proof.
  revert c; induction a as [|x a IH]; intros c H.
  - left. exists c. auto.
  - destruct c as [|y c].
    + right. exists (String x a). auto.
    + simpl in H. injection H as -> H.
      destruct (IH _ H) as [[z [-> ->]]|[z [-> ->]]]; [left|right];
        exists z; auto.
Qed.

Section StageEquations.
Import RegExp Shape.

(** The scan with a region pattern, as an equation on first occurrences. *)
Lemma replaceAll_region (start stop : string) (f : string -> string) (doc : string) :
  start <> "" ->
  replaceAll (regionRegex start stop) f doc =
    match Text.cut start doc with
    | Some (before, rest) =>
        match Text.cut stop rest with
        | Some (body, after) =>
            before ++ f (start ++ body ++ stop)
              ++ replaceAll (regionRegex start stop) f after
        | None => doc
        end
    | None => doc
    end.
Proof.
  intro Hstart.
  destruct (Text.cut start doc) as [[before rest]|] eqn:C1.
  - pose proof (cut_sound _ _ C1) as ->.
    destruct (Text.cut stop rest) as [[body after]|] eqn:C2.
    + pose proof (cut_sound _ _ C2) as ->.
      rewrite replaceAll_before.
      2:{ intros a1 c a2 Ha. rewrite matchAt_region.
          now rewrite (cut_first _ _ C1 _ _ _ Ha). }
      f_equal.
      replace (start ++ body ++ stop ++ after)
        with ((start ++ body ++ stop) ++ after)
        by now rewrite !append_assoc.
      apply replaceAll_hit.
      * destruct start; [congruence | discriminate].
      * rewrite matchAt_region, !append_assoc, stripPrefix_append.
        now rewrite firstSuffix_cut, C2.
    + apply replaceAll_none. intros a c t Hsplit.
      rewrite matchAt_region.
      destruct (Js.stripPrefix start (String c t)) as [rest'|] eqn:P; [|reflexivity].
      rewrite firstSuffix_cut.
      enough (Text.cut stop rest' = None) as -> by reflexivity.
      apply stripPrefix_Some in P.
      destruct (append_eq_split _ _ _ _ Hsplit) as [[x [-> Hx]]|[x [Hb Hx]]].
      * (* the position is at or after the first start marker *)
        rewrite P in Hx.
        replace (x ++ start ++ rest') with ((x ++ start) ++ rest') in Hx
          by now rewrite append_assoc.
        destruct (append_eq_split _ _ _ _ Hx) as [[y [_ ->]]|[y [Hy ->]]].
        -- now apply cut_None_suffix in C2.
        -- assert (L : String.length start
                        = String.length ((x ++ start) ++ y)) by now rewrite <- Hy.
           rewrite !length_append in L.
           destruct y; [assumption | simpl in L; lia].
      * (* the position is before it: the start marker is not there *)
        destruct x as [|d x].
        -- rewrite append_nil_r in Hb. subst a. simpl in Hx.
           rewrite P in Hx. apply append_inv_head in Hx. now subst.
        -- pose proof (cut_first _ _ C1 _ _ _ Hb) as N.
           rewrite <- Hx, P, stripPrefix_append in N. discriminate.
  - apply replaceAll_none. intros a c t ->.
    rewrite matchAt_region.
    now rewrite (cut_None_prefix _ _ (cut_None_suffix _ _ _ C1)).
Qed.

Lemma replaceAll_marker (marker : string) (f : string -> string) (doc : string) :
  marker <> "" ->
  replaceAll (markerRegex marker) f doc =
    match Text.cut marker doc with
    | Some (before, after) =>
        before ++ f marker ++ replaceAll (markerRegex marker) f after
    | None => doc
    end.
Proof.
  intro Hm.
  destruct (Text.cut marker doc) as [[before after]|] eqn:C.
  - pose proof (cut_sound _ _ C) as ->.
    rewrite replaceAll_before.
    2:{ intros a1 c a2 Ha. rewrite matchAt_marker.
        apply (cut_first _ _ C _ _ _ Ha). }
    f_equal. apply replaceAll_hit; [assumption|].
    now rewrite matchAt_marker, stripPrefix_append.
  - apply replaceAll_none. intros a c t ->.
    rewrite matchAt_marker.
    apply (cut_None_prefix _ _ (cut_None_suffix _ _ _ C)).
Qed.

End StageEquations.

(** ** Compiling the four patterns *)

(** One step of the parser on a known character. *)
Ltac pstep_char :=
  cbn [RegExp.prun];
  cbv [RegExp.pstep RegExp.md RegExp.pstepNormal RegExp.pushTerm RegExp.quantify
       RegExp.escapeSet RegExp.stack RegExp.cur RegExp.alts RegExp.terms
       RegExp.emptyFrame];
  cbv iota beta.

Section CompileFacts.
Import RegExp Shape.

Lemma litThen_append (a b : string) (r : regex) :
  litThen (a ++ b) r = litThen a (litThen b r).
Proof. induction a as [|c a IH]; simpl; [reflexivity | now rewrite IH]. Qed.

Lemma pstepNormal_plain (st : pstate) (c : ascii) :
  Text.isMeta c = false ->
  pstepNormal st c = pushTerm st (Cset (CsChar c)).
Proof.
  destruct c as [[] [] [] [] [] [] [] []]; intro H;
    solve [discriminate H | reflexivity].
Qed.

Lemma prun_plain (p : string) :
  forall stk al ts rest,
    Text.plain p = true ->
    prun (PState stk (Frame al ts) MNormal) (p ++ rest) =
    prun (PState stk (Frame al (pushPlain ts p)) MNormal) rest.
Proof.
  induction p as [|c p IH]; intros stk al ts rest H; [reflexivity|].
  simpl in H. apply andb_prop in H as [Hc Hp]. apply negb_true_iff in Hc.
  cbn [append prun pstep md]. rewrite (pstepNormal_plain _ _ Hc).
  unfold pushTerm. cbn [stack cur alts terms pushPlain]. now apply IH.
Qed.

Lemma fold_pushPlain (p : string) :
  forall ts acc,
    fold_left (fun acc t => Seq (termRegex t) acc) (pushPlain ts p) acc =
    fold_left (fun acc t => Seq (termRegex t) acc) ts (litThen p acc).
Proof.
  induction p as [|c p IH]; intros ts acc; [reflexivity|].
  cbn [pushPlain litThen]. now rewrite IH.
Qed.

Lemma compile_injectJs :
  compile "(<!-- inject:js -->)([\s\S]*?)(<!-- endinject -->)" =
  Ok (regionRegex "<!-- inject:js -->" "<!-- endinject -->").
Proof. vm_compute. reflexivity. Qed.

Lemma compile_injectCss :
  compile "(<!-- inject:css -->)([\s\S]*?)(<!-- endinject -->)" =
  Ok (regionRegex "<!-- inject:css -->" "<!-- endinject -->").
Proof. vm_compute. reflexivity. Qed.

Lemma compile_gitHash :
  compile "(<!-- inject:git-hash -->)" = Ok (markerRegex "<!-- inject:git-hash -->").
Proof. vm_compute. reflexivity. Qed.

(** A condition without metacharacters is spliced into the pattern as a
    literal. *)
Lemma compile_remove (c : string) :
  Text.plain c = true ->
  compile ("(<!-- remove:" ++ c ++ " -->)([\s\S]*?)(<!-- endremove -->)") =
  Ok (regionRegex ("<!-- remove:" ++ c ++ " -->") "<!-- endremove -->").
Proof.
  intro H. unfold compile. cbn [append].
  do 13 pstep_char.
  rewrite (prun_plain _ _ _ _ _ H).
  do 37 pstep_char.
  cbn [prun]. cbv [pfinish md stack cur].
  unfold frameRegex, seqOf. cbn [alts terms fold_left termRegex].
  rewrite fold_pushPlain. cbn [fold_left termRegex negb].
  unfold regionRegex. cbn [litThen]. rewrite litThen_append. reflexivity.
Qed.

End CompileFacts.

(** From here on the parser and the scan are used through their lemmas. *)
Opaque RegExp.compile RegExp.replaceAll.

(** ** Stages *)

Section StageFacts.
Import RegExp Shape.

Lemma regionStage_function (src start stop : string) (f : string -> string) :
  compile src = Ok (regionRegex start stop) ->
  start <> "" ->
  RegionStage start stop f (replaceStream src (ByFunction f)).
Proof.
  intros C Hs. unfold replaceStream. rewrite C. cbn [bind].
  eexists; split; [reflexivity|]. intro doc. now apply replaceAll_region.
Qed.

Lemma regionStage_string (src start stop text : string) :
  compile src = Ok (regionRegex start stop) ->
  start <> "" ->
  Js.hasChar "$"%char text = false ->
  RegionStage start stop (fun _ => text) (replaceStream src (ByString text)).
Proof.
  intros C Hs Ht. unfold replaceStream. rewrite C. cbn [bind]. rewrite Ht.
  eexists; split; [reflexivity|]. intro doc.
  now apply (replaceAll_region stop (fun _ => text)).
Qed.

Lemma markerStage_string (src marker text : string) :
  compile src = Ok (markerRegex marker) ->
  marker <> "" ->
  Js.hasChar "$"%char text = false ->
  MarkerStage marker text (replaceStream src (ByString text)).
Proof.
  intros C Hm Ht. unfold replaceStream. rewrite C. cbn [bind]. rewrite Ht.
  eexists; split; [reflexivity|]. intro doc.
  now apply (replaceAll_marker (fun _ => text)).
Qed.

(** With no fragment the callback returns the match itself. *)
Lemma through_identity (src : string) (r : regex) (doc : string) :
  compile src = Ok r ->
  through (replaceStream src (ByFunction (fun m0 => m0))) doc = Ok doc.
Proof.
  intro C. unfold through, replaceStream. rewrite C. cbn [bind].
  now rewrite replaceAll_identity.
Qed.

Lemma hasChar_append (c : ascii) (a b : string) :
  Js.hasChar c (a ++ b) = Js.hasChar c a || Js.hasChar c b.
Proof.
  induction a as [|d a IH]; simpl; [reflexivity|].
  now rewrite IH, orb_assoc.
Qed.

End StageFacts.

(** ** The inject stages *)

(** C1.  In both source files, the inject:js stage and the inject:css stage
    replace each region from the start marker to [<!-- endinject -->], both
    markers included, with the fragments joined by one newline when there is
    at least one fragment; with no fragment the document passes through
    unchanged, markers retained. *)
Theorem inject_stage_replaces_regions :
  forall (fragment : string) (others : list string) (doc : string),
    let frags := fragment :: others in
    let joined := fun _ : string => Js.join Js.nl frags in
    RegionStage "<!-- inject:js -->" "<!-- endinject -->" joined (Mjs.injectJs frags) /\
    RegionStage "<!-- inject:css -->" "<!-- endinject -->" joined (Mjs.injectCss frags) /\
    RegionStage "<!-- inject:js -->" "<!-- endinject -->" joined (Cjs.injectJs frags) /\
    RegionStage "<!-- inject:css -->" "<!-- endinject -->" joined (Cjs.injectCss frags) /\
    through (Mjs.injectJs []) doc = Ok doc /\
    through (Mjs.injectCss []) doc = Ok doc /\
    through (Cjs.injectJs []) doc = Ok doc /\
    through (Cjs.injectCss []) doc = Ok doc.
Proof.
  intros fragment others doc frags joined.
  unfold Mjs.injectJs, Mjs.injectCss, Cjs.injectJs, Cjs.injectCss.
  cbn [nonEmpty frags].
  pose proof (@regionStage_function _ _ _ joined compile_injectJs) as Hjs.
  pose proof (@regionStage_function _ _ _ joined compile_injectCss) as Hcss.
  pose proof (@through_identity _ _ doc compile_injectJs) as Ijs.
  pose proof (@through_identity _ _ doc compile_injectCss) as Icss.
  assert (Njs : "<!-- inject:js -->" <> "") by discriminate.
  assert (Ncss : "<!-- inject:css -->" <> "") by discriminate.
  repeat apply conj;
    [ exact (Hjs Njs) | exact (Hcss Ncss) | exact (Hjs Njs) | exact (Hcss Ncss)
    | exact Ijs | exact Icss | exact Ijs | exact Icss ].
Qed.

(** ** The remove condition *)

Section RemoveCondition.

Lemma split_no_separator (sep : ascii) (s : string) :
  Js.hasChar sep s = false -> Js.split sep s = ([], s).
Proof.
  induction s as [|c s IH]; simpl; intro H; [reflexivity|].
  apply orb_false_elim in H as [Hc Hs]. rewrite (IH Hs).
  rewrite Ascii.eqb_sym, Hc. reflexivity.
Qed.

Lemma split_pieces (sep : ascii) (a tok : string) :
  exists p ps, fst (Js.split sep (a ++ String sep tok)) = p :: ps.
Proof.
  induction a as [|c a IH]; cbn [append Js.split].
  - destruct (Js.split sep tok) as [pieces last]. rewrite Ascii.eqb_refl.
    destruct pieces; simpl; eauto.
  - destruct IH as [p [ps IH]].
    destruct (Js.split sep (a ++ String sep tok)) as [pieces last].
    simpl in IH. subst pieces. destruct (Ascii.eqb c sep); simpl; eauto.
Qed.

Lemma splitPop_last (sep : ascii) (a tok : string) :
  Js.hasChar sep tok = false ->
  Js.splitPop sep (a ++ String sep tok) = tok.
Proof.
  intro H. unfold Js.splitPop. induction a as [|c a IH]; cbn [append Js.split].
  - rewrite (split_no_separator _ _ H), Ascii.eqb_refl. reflexivity.
  - destruct (split_pieces sep a tok) as [p [ps E]].
    destruct (Js.split sep (a ++ String sep tok)) as [pieces last].
    simpl in E, IH. subst pieces last. now destruct (Ascii.eqb c sep).
Qed.

Lemma splitPop_whole (sep : ascii) (tok : string) :
  Js.hasChar sep tok = false -> Js.splitPop sep tok = tok.
Proof. intro H. unfold Js.splitPop. now rewrite split_no_separator. Qed.

Lemma removeCondition_lastToken (arg : option string) (tok : string) :
  LastToken arg tok ->
  Mjs.removeCondition arg = tok /\ Cjs.removeCondition arg = tok.
Proof.
  unfold LastToken, Mjs.removeCondition, Cjs.removeCondition.
  destruct arg as [a|]; [|now intros ->].
  intros [Hc [->|[before ->]]].
  - destruct tok as [|c tok]; [now split|].
    cbn [Js.truthy]. now rewrite splitPop_whole.
  - assert (T : Js.truthy (before ++ ":" ++ tok) = true) by now destruct before.
    rewrite T. cbn [append]. now rewrite splitPop_last.
Qed.

End RemoveCondition.

(** ** The remove stage *)

(** C2 (as amended).  When the last colon-separated token of the [--remove]
    argument (the empty string when the argument is absent) holds no
    regular-expression metacharacter, the remove stage of both source files
    deletes each successive span from [<!-- remove:token -->] to the next
    [<!-- endremove -->], markers included, and keeps the text outside those
    spans, so a region with another token outside them stays as it is. *)
Theorem remove_stage_deletes_plain_token_regions :
  forall (arg : option string) (tok : string),
    LastToken arg tok ->
    Text.plain tok = true ->
    Mjs.removeCondition arg = tok /\
    Cjs.removeCondition arg = tok /\
    RegionStage ("<!-- remove:" ++ tok ++ " -->") "<!-- endremove -->"
      (fun _ => "") (Mjs.removeRegions (Mjs.removeCondition arg)) /\
    RegionStage ("<!-- remove:" ++ tok ++ " -->") "<!-- endremove -->"
      (fun _ => "") (Cjs.removeRegions (Cjs.removeCondition arg)).
Proof.
  intros arg tok HL Hp.
  destruct (@removeCondition_lastToken arg tok HL) as [E1 E2].
  rewrite E1, E2. unfold Mjs.removeRegions, Cjs.removeRegions.
  assert (N : "<!-- remove:" ++ tok ++ " -->" <> "") by discriminate.
  pose proof (@regionStage_string _ _ _ "" (@compile_remove tok Hp) N eq_refl) as R.
  repeat apply conj; [reflexivity | reflexivity | exact R | exact R].
Qed.

Lemma remove_stage_deletes_plain_token_regions_witness :
  LastToken (Some "remove:development") "development" /\
  Text.plain "development" = true /\
  RegionStage "<!-- remove:development -->" "<!-- endremove -->"
    (fun _ => "") (Mjs.removeRegions (Mjs.removeCondition (Some "remove:development"))).
Proof.
  assert (HL : LastToken (Some "remove:development") "development").
  { split; [reflexivity|]. right. exists "remove". reflexivity. }
  assert (Hp : Text.plain "development" = true) by reflexivity.
  split; [exact HL|]. split; [exact Hp|].
  exact (proj1 (proj2 (proj2
    (@remove_stage_deletes_plain_token_regions
       (Some "remove:development") "development" HL Hp)))).
Defined.

(** C2, as stated, fails: the token is spliced into the pattern unescaped.
    With the condition [.] a region whose token is [x] is deleted; with the
    condition [a+] the region whose token is [a+] is kept; with the
    condition [(] no pattern is built at all. *)
Lemma remove_stage_token_is_a_pattern :
  Cjs.removeCondition (Some ".") = "." /\
  through (Cjs.removeRegions (Cjs.removeCondition (Some ".")))
    "<!-- remove:x -->Y<!-- endremove -->" = Ok "" /\
  through (Mjs.removeRegions (Mjs.removeCondition (Some ".")))
    "<!-- remove:x -->Y<!-- endremove -->" = Ok "" /\
  through (Cjs.removeRegions (Cjs.removeCondition (Some "a+")))
    "<!-- remove:a+ -->Y<!-- endremove -->" = Ok "<!-- remove:a+ -->Y<!-- endremove -->" /\
  Cjs.removeRegions (Cjs.removeCondition (Some "(")) =
    Err (SyntaxError "Unterminated group").
Proof. vm_compute. repeat split. Qed.

(** ** The git-hash stage *)

(** C3 (as amended).  In both source files the git-hash stage replaces every
    occurrence of [<!-- inject:git-hash -->] with [<!-- ], the revision and
    [ -->]; without [--hash] the revision is the empty string, so the marker
    becomes [<!--  -->], with two spaces between the dashes.  (The revision
    is assumed free of [$], as every git identifier is.) *)
Theorem git_hash_stage_replaces_marker :
  forall (rev : string) (e : Env),
    Js.hasChar "$"%char rev = false ->
    MarkerStage "<!-- inject:git-hash -->" ("<!-- " ++ rev ++ " -->")
      (Mjs.injectGitHash rev) /\
    MarkerStage "<!-- inject:git-hash -->" ("<!-- " ++ rev ++ " -->")
      (Cjs.injectGitHash rev) /\
    Mjs.revision e false = Ok "" /\
    Cjs.revision e false = Ok "" /\
    MarkerStage "<!-- inject:git-hash -->" "<!--  -->" (Mjs.injectGitHash "") /\
    MarkerStage "<!-- inject:git-hash -->" "<!--  -->" (Cjs.injectGitHash "").
Proof.
  intros rev e H.
  assert (N : "<!-- inject:git-hash -->" <> "") by discriminate.
  assert (D : Js.hasChar "$"%char ("<!-- " ++ rev ++ " -->") = false).
  { rewrite !hasChar_append, H. reflexivity. }
  pose proof (@markerStage_string _ _ ("<!-- " ++ rev ++ " -->") compile_gitHash N D)
    as S1.
  pose proof (@markerStage_string _ _ "<!--  -->" compile_gitHash N eq_refl) as S2.
  unfold Mjs.injectGitHash, Cjs.injectGitHash.
  repeat apply conj;
    [ exact S1 | exact S1 | reflexivity | reflexivity | exact S2 | exact S2 ].
Qed.

Lemma git_hash_stage_replaces_marker_witness :
  Js.hasChar "$"%char "0a1b2c" = false /\
  MarkerStage "<!-- inject:git-hash -->" "<!-- 0a1b2c -->" (Mjs.injectGitHash "0a1b2c").
Proof.
  split; [reflexivity|].
  exact (proj1 (@git_hash_stage_replaces_marker "0a1b2c" Demo.site eq_refl)).
Defined.

(** C3, as stated, fails: without [--hash] the marker does not become
    [<!-- -->]. *)
Lemma git_hash_stage_empty_revision :
  Mjs.revision Demo.site false = Ok "" /\
  through (Mjs.injectGitHash "") "<!-- inject:git-hash -->" = Ok "<!--  -->" /\
  through (Mjs.injectGitHash "") "<!-- inject:git-hash -->" <> Ok "<!-- -->" /\
  through (Cjs.injectGitHash "") "<!-- inject:git-hash -->" <> Ok "<!-- -->".
Proof. vm_compute. repeat split; discriminate. Qed.

(** ** A run without options *)

Section NoNewMarker.

(** Whether [p] starts a text is settled before a character that [p] does
    not hold. *)
Lemma stripPrefix_blind (p : string) :
  forall (x : string) (c0 : ascii) (u u' : string),
    Js.hasChar c0 p = false ->
    Js.stripPrefix p (x ++ String c0 u) = None ->
    Js.stripPrefix p (x ++ String c0 u') = None.
Proof.
  induction p as [|d p IH]; intros x c0 u u' Hp H.
  - destruct x; discriminate H.
  - simpl in Hp. apply orb_false_elim in Hp as [Hd Hp].
    destruct x as [|c x]; cbn [append Js.stripPrefix] in *.
    + now rewrite Ascii.eqb_sym, Hd.
    + destruct (Ascii.eqb d c); [|reflexivity]. now apply (IH x c0 u u').
Qed.


Lemma cut_length (p s a b : string) :
  Text.cut p s = Some (a, b) ->
  String.length s = String.length a + String.length p + String.length b.
Proof.
  intro C. apply cut_sound in C. subst s. rewrite !length_append. lia.
Qed.


End NoNewMarker.

Section NoOptionRun.
Import RegExp Shape.






(** A run that reaches the pipe: what it reads and what it writes.  (The
    arguments of the two lemmas are passed by hand.) *)
Unset Implicit Arguments.



Set Implicit Arguments.





End NoOptionRun.

(** The two files build the same pipe. *)
Lemma transform_same (jsFiles cssFiles : list string) (rev rc : string) :
  Cjs.transform jsFiles cssFiles rev rc = Mjs.transform jsFiles cssFiles rev rc.
Proof.
  unfold Cjs.transform, Mjs.transform, Cjs.injectJs, Mjs.injectJs,
    Cjs.injectCss, Mjs.injectCss, Cjs.injectGitHash, Mjs.injectGitHash,
    Cjs.removeRegions, Mjs.removeRegions.
  reflexivity.
Qed.




(** ** The pattern resolver *)

Section Resolver.

Lemma endsWith_spec (s suffix : string) :
  Js.endsWith s suffix = true <-> exists stem, s = stem ++ suffix.
Proof.
  unfold Js.endsWith. split.
  - intro H. apply andb_prop in H as [_ H]. apply String.eqb_eq in H.
    exists (Js.take (String.length s - String.length suffix) s).
    rewrite <- H at 2. symmetry. apply take_slice.
  - intros [stem ->]. rewrite length_append. apply andb_true_intro. split.
    + apply Nat.leb_le. lia.
    + replace (String.length stem + String.length suffix - String.length suffix)
        with (String.length stem) by lia.
      rewrite slice_append. apply String.eqb_refl.
Qed.

Lemma patternToFileNames_same (e : Env) (pattern extension : string) :
  Cjs.patternToFileNames e pattern extension =
  Mjs.patternToFileNames e pattern extension.
Proof. reflexivity. Qed.

(** C4.  For a pattern without glob magic, in both source files: a directory
    resolves to its entries (as [readdir] lists them) whose name ends with
    the extension, each joined to the pattern by [path.join]; a regular file
    resolves to the pattern alone; any other kind of node that [lstat]
    reports resolves to the empty list. *)
Theorem resolver_non_glob_pattern :
  forall (e : Env) (pattern extension : string),
    hasMagic e pattern = false ->
    (forall names,
       lstat e pattern = Ok StDirectory ->
       readdir e pattern = Ok names ->
       Mjs.patternToFileNames e pattern extension =
         Ok (map (pathJoin e pattern)
               (filter (fun name => Js.endsWith name extension) names)) /\
       (forall path,
          In path
            (map (pathJoin e pattern)
               (filter (fun name => Js.endsWith name extension) names)) <->
          exists stem,
            In (stem ++ extension) names /\
            path = pathJoin e pattern (stem ++ extension))) /\
    (lstat e pattern = Ok StFile ->
     Mjs.patternToFileNames e pattern extension = Ok [pattern]) /\
    (lstat e pattern = Ok StOther ->
     Mjs.patternToFileNames e pattern extension = Ok []) /\
    Cjs.patternToFileNames e pattern extension =
      Mjs.patternToFileNames e pattern extension.
Proof.
  intros e pattern extension Hm. unfold Mjs.patternToFileNames. rewrite Hm.
  repeat apply conj.
  - intros names Hl Hr. rewrite Hl. cbn [bind isDirectory]. rewrite Hr.
    split; [reflexivity|]. intro path. rewrite in_map_iff. split.
    + intros [name [<- Hin]]. apply filter_In in Hin as [Hin He].
      apply endsWith_spec in He as [stem ->]. eauto.
    + intros [stem [Hin ->]]. exists (stem ++ extension). split; [reflexivity|].
      apply filter_In. split; [exact Hin|]. apply endsWith_spec. eauto.
  - intros ->. reflexivity.
  - intros ->. reflexivity.
  - unfold Cjs.patternToFileNames. rewrite Hm. reflexivity.
Qed.

Lemma resolver_non_glob_pattern_witness :
  hasMagic Demo.site "dist" = false /\
  lstat Demo.site "dist" = Ok StDirectory /\
  readdir Demo.site "dist" = Ok ["app.js"; "app.css"; "notes.txt"; "vendor.js"] /\
  Mjs.patternToFileNames Demo.site "dist" ".js" = Ok ["dist/app.js"; "dist/vendor.js"].
Proof.
  split; [reflexivity|]. split; [reflexivity|]. split; [reflexivity|].
  exact (proj1 (proj1 (@resolver_non_glob_pattern Demo.site "dist" ".js" eq_refl)
                  ["app.js"; "app.css"; "notes.txt"; "vendor.js"] eq_refl eq_refl)).
Defined.

End Resolver.

(** ** The tag generator *)

Section TagFacts.

Lemma mapM_pure (A B : Type) (f : A -> Result B) (g : A -> B) (xs : list A) :
  (forall x, In x xs -> f x = Ok (g x)) -> mapM f xs = Ok (map g xs).
Proof.
  induction xs as [|x xs IH]; intro H; [reflexivity|].
  cbn [mapM map]. rewrite (H x (or_introl eq_refl)). cbn [bind].
  rewrite IH; [reflexivity|]. intros y Hy. apply H. now right.
Qed.

Lemma mapM_ext (A B : Type) (f f' : A -> Result B) (xs : list A) :
  (forall x, f x = f' x) -> mapM f xs = mapM f' xs.
Proof.
  intro H. induction xs as [|x xs IH]; [reflexivity|].
  cbn [mapM]. now rewrite H, IH.
Qed.

Lemma mapM_Forall2 (A B : Type) (f : A -> Result B) (xs : list A) :
  forall ys, mapM f xs = Ok ys -> Forall2 (fun x y => f x = Ok y) xs ys.
Proof.
  induction xs as [|x xs IH]; intros ys H; cbn [mapM] in H.
  - injection H as <-. constructor.
  - destruct (f x) as [y|] eqn:Fx; cbn [bind] in H; [|discriminate].
    destruct (mapM f xs) as [ys'|]; cbn [bind] in H; [|discriminate].
    injection H as <-. constructor; auto.
Qed.

End TagFacts.

Section Generators.

Lemma mapM_Forall2_iff (A B : Type) (f : A -> Result B) (xs : list A) (ys : list B) :
  mapM f xs = Ok ys <-> Forall2 (fun x y => f x = Ok y) xs ys.
Proof.
  split; [apply mapM_Forall2|].
  induction 1 as [|x y xs ys Hx _ IH]; [reflexivity|].
  cbn [mapM]. rewrite Hx. cbn [bind]. rewrite IH. reflexivity.
Qed.

Lemma Forall2_iff (A B : Type) (P Q : A -> B -> Prop) (xs : list A) (ys : list B) :
  (forall x y, P x y <-> Q x y) -> Forall2 P xs ys <-> Forall2 Q xs ys.
Proof.
  intro H. split; induction 1; constructor; auto; now apply H.
Qed.

(** A generator succeeds when the resolver does and every file yields its
    tag, one tag for one file, in the order of the files. *)
Lemma generator_iff (A : Type) (resolved : Result (list A)) (f : A -> Result string)
  (P : A -> string -> Prop) (tags : list string) :
  (forall x y, f x = Ok y <-> P x y) ->
  ((files <- resolved ;; mapM f files) = Ok tags <->
   exists files, resolved = Ok files /\ Forall2 P files tags).
Proof.
  intro H. destruct resolved as [files|x]; cbn [bind].
  - rewrite mapM_Forall2_iff, (@Forall2_iff _ _ _ _ files tags H). split.
    + intro F. now exists files.
    + intros [files' [E F]]. now injection E as ->.
  - split; [discriminate | intros [files [E _]]; discriminate].
Qed.

Lemma read_then_wrap (e : Env) (file opening closing tag : string) :
  (content <- readFile e file ;; Ok (opening ++ content ++ closing)) = Ok tag <->
  exists content, readFile e file = Ok content /\ tag = opening ++ content ++ closing.
Proof.
  destruct (readFile e file) as [content|x]; cbn [bind]; split.
  - intro E. injection E as <-. eauto.
  - intros [c [E ->]]. now injection E as ->.
  - discriminate.
  - intros [c [E _]]. discriminate.
Qed.

End Generators.

Section LinkedTags.

Variable e : Env.

(** The script tag of the CommonJS file without [async] and [defer] is the
    script tag of the ES module. *)
Lemma scriptTag_same (i : bool) (g : option string) (t : bool) (fileName : string) :
  Cjs.scriptTag e
    {| Cjs.async := false; Cjs.defer := false; Cjs.inline := i;
       Cjs.ignore := g; Cjs.etag := t |} fileName =
  Mjs.scriptTag e {| Mjs.inline := i; Mjs.ignore := g; Mjs.etag := t |} fileName.
Proof.
  unfold Cjs.scriptTag, Mjs.scriptTag, Cjs.attributes.
  cbn [Cjs.async Cjs.defer Cjs.inline Cjs.ignore Cjs.etag
       Mjs.inline Mjs.ignore Mjs.etag].
  unfold Cjs.appendETagSHAToFilename, Mjs.appendETagSHAToFilename.
  destruct i; [reflexivity|].
  destruct t;
    [destruct (createHash e "sha") as [[]|x]; [|reflexivity]; cbn [bind];
     destruct (readFile e _) as [content|x]; [|reflexivity]|];
    cbn [bind Js.join append]; now rewrite !append_assoc.
Qed.

Lemma styleTag_same (i : bool) (g : option string) (t : bool) (fileName : string) :
  Cjs.styleTag e {| Cjs.sInline := i; Cjs.sIgnore := g; Cjs.sEtag := t |} fileName =
  Mjs.styleTag e {| Mjs.inline := i; Mjs.ignore := g; Mjs.etag := t |} fileName.
Proof. reflexivity. Qed.

End LinkedTags.

(** C5.  In linked mode with an ignore prefix, in both source files, the
    path emitted for a resolved file is the file path without its first
    [ignore.length] characters, whatever those characters are; a path no
    longer than the prefix is emitted empty.  With [--etag] the suffix is
    appended to that sliced path. *)
Theorem ignore_prefix_is_a_blind_slice :
  forall (e : Env) (pattern ig : string) (files : list string) (a d : bool),
    let stripped := fun file : string => Js.slice (String.length ig) file in
    let linked := {| Mjs.inline := false; Mjs.ignore := Some ig; Mjs.etag := false |} in
    let linkedScript :=
      {| Cjs.async := a; Cjs.defer := d; Cjs.inline := false;
         Cjs.ignore := Some ig; Cjs.etag := false |} in
    let linkedStyle :=
      {| Cjs.sInline := false; Cjs.sIgnore := Some ig; Cjs.sEtag := false |} in
    (Mjs.patternToFileNames e pattern ".js" = Ok files ->
     Mjs.filePatternToScriptTags e pattern linked =
       Ok (map (fun file => "<script src=" ++ Js.dq ++ stripped file ++ Js.dq
                              ++ "></script>") files) /\
     Cjs.filePatternToScriptTags e pattern linkedScript =
       Ok (map (fun file =>
                  "<script " ++ Js.join " " (Cjs.attributes linkedScript (stripped file))
                    ++ "></script>") files)) /\
    (Mjs.patternToFileNames e pattern ".css" = Ok files ->
     Mjs.filePatternToStyleTags e pattern linked =
       Ok (map (fun file => "<link rel=" ++ Js.dq ++ "stylesheet" ++ Js.dq ++ " href="
                              ++ Js.dq ++ stripped file ++ Js.dq ++ ">") files) /\
     Cjs.filePatternToStyleTags e pattern linkedStyle =
       Ok (map (fun file => "<link rel=" ++ Js.dq ++ "stylesheet" ++ Js.dq ++ " href="
                              ++ Js.dq ++ stripped file ++ Js.dq ++ ">") files)) /\
    (forall head rest,
       String.length head = String.length ig -> stripped (head ++ rest) = rest) /\
    (forall file, String.length file <= String.length ig -> stripped file = "") /\
    (forall file,
       Mjs.scriptTag e {| Mjs.inline := false; Mjs.ignore := Some ig; Mjs.etag := true |}
         file =
       (path <- Mjs.appendETagSHAToFilename e (stripped file) ;;
        Ok ("<script src=" ++ Js.dq ++ path ++ Js.dq ++ "></script>"))).
Proof.
  intros e pattern ig files a d stripped linked linkedScript linkedStyle.
  repeat apply conj.
  - intro H. unfold Mjs.filePatternToScriptTags, Cjs.filePatternToScriptTags.
    change (Cjs.patternToFileNames e pattern ".js")
      with (Mjs.patternToFileNames e pattern ".js").
    rewrite H. cbn [bind].
    split; apply mapM_pure; intros file _; reflexivity.
  - intro H. unfold Mjs.filePatternToStyleTags, Cjs.filePatternToStyleTags.
    change (Cjs.patternToFileNames e pattern ".css")
      with (Mjs.patternToFileNames e pattern ".css").
    rewrite H. cbn [bind].
    split; apply mapM_pure; intros file _; reflexivity.
  - intros head rest L. unfold stripped. rewrite <- L. apply slice_append.
  - intros file L. now apply slice_all.
  - reflexivity.
Qed.

Lemma ignore_prefix_is_a_blind_slice_witness :
  Mjs.patternToFileNames Demo.site "dist" ".js" = Ok ["dist/app.js"; "dist/vendor.js"] /\
  Mjs.filePatternToScriptTags Demo.site "dist"
    {| Mjs.inline := false; Mjs.ignore := Some "12345"; Mjs.etag := false |} =
    Ok [ "<script src=" ++ Js.dq ++ "app.js" ++ Js.dq ++ "></script>";
         "<script src=" ++ Js.dq ++ "vendor.js" ++ Js.dq ++ "></script>" ].
Proof.
  split; [reflexivity|].
  exact (proj1 (proj1 (@ignore_prefix_is_a_blind_slice Demo.site "dist" "12345"
                         ["dist/app.js"; "dist/vendor.js"] false false) eq_refl)).
Defined.

Ltac string_norm :=
  repeat first [rewrite append_assoc | progress cbn [append Js.join Js.dq app]].

Section LinkedPaths.

(** What the linked branch of a generator does for one file. *)
Lemma linked_path_iff (e : Env) (ig : option string) (et : bool) (file tag : string)
  (wrap : string -> string) :
  (let path := file in
   let path :=
     match ig with
     | Some ig => Js.slice (String.length ig) path
     | None => path
     end in
   path <- (if et then Mjs.appendETagSHAToFilename e path else Ok path) ;;
   Ok (wrap path)) = Ok tag <->
  exists path, EmittedPath e ig et file path /\ tag = wrap path.
Proof.
  unfold EmittedPath, Mjs.appendETagSHAToFilename. cbn zeta.
  set (sliced := match ig with
                 | Some ig0 => Js.slice (String.length ig0) file
                 | None => file
                 end).
  destruct et.
  - destruct (createHash e "sha") as [[]|x]; cbn [bind].
    + destruct (readFile e sliced) as [content|x]; cbn [bind]; split.
      * intro E. injection E as <-. eexists.
        split; [split; [reflexivity | eauto] | reflexivity].
      * intros [path [[_ [c [E ->]]] ->]]. now injection E as ->.
      * discriminate.
      * intros [path [[_ [c [E _]]] _]]. discriminate.
    + split; [discriminate|]. intros [path [[E _] _]]. discriminate.
  - cbn [bind]. split.
    + intro E. injection E as <-. eauto.
    + intros [path [-> ->]]. reflexivity.
Qed.

(** The attribute list joined by spaces, written out. *)
Lemma script_tag_text (o : Cjs.ScriptOptions) (path : string) :
  "<script " ++ Js.join " " (Cjs.attributes o path) ++ "></script>" =
  "<script src=" ++ Js.dq ++ path ++ Js.dq
    ++ (if Cjs.async o then " async" else if Cjs.defer o then " defer" else "")
    ++ "></script>".
Proof.
  unfold Cjs.attributes.
  destruct (Cjs.async o), (Cjs.defer o); string_norm; reflexivity.
Qed.

Lemma attributes_never_both (o : Cjs.ScriptOptions) (path : string) :
  ~ (In "async" (Cjs.attributes o path) /\ In "defer" (Cjs.attributes o path)).
Proof.
  unfold Cjs.attributes.
  destruct (Cjs.async o), (Cjs.defer o); cbn [app In append];
    intros [A B]; intuition discriminate.
Qed.

(** With the files resolved, a generator returns the tags that its loop
    body returns file by file. *)
Lemma tags_of_files (names : Result (list string)) (files tags : list string)
  (f : string -> Result string) (P : string -> string -> Prop) :
  names = Ok files ->
  (forall file tag, f file = Ok tag <-> P file tag) ->
  ((fileNames <- names ;; mapM f fileNames) = Ok tags <-> Forall2 P files tags).
Proof.
  intros -> H. cbn [bind]. rewrite mapM_Forall2_iff. now apply Forall2_iff.
Qed.

End LinkedPaths.

(** C7.  In linked mode, with the files of the pattern resolved, the
    generators return one tag for each file, in the order of the files, and
    the tag of a file refers to the path emitted for that file.  In the
    CommonJS file, which declares the two options, the script tag is
    [<script src="path" async></script>] when async is requested, with or
    without defer, [<script src="path" defer></script>] when defer alone is
    requested, and [<script src="path"></script>] otherwise; its attribute
    list never holds both.  The ES module, where neither option can be
    requested, generates [<script src="path"></script>].  In both files a
    style sheet is emitted as [<link rel="stylesheet" href="path">]. *)
Theorem script_tag_async_wins :
  forall (e : Env) (o : Cjs.ScriptOptions) (pattern : string) (files : list string),
    Cjs.inline o = false ->
    Cjs.patternToFileNames e pattern ".js" = Ok files ->
    let attribute :=
      if Cjs.async o then " async" else if Cjs.defer o then " defer" else "" in
    let link := fun path : string =>
      "<link rel=" ++ Js.dq ++ "stylesheet" ++ Js.dq ++ " href=" ++ Js.dq ++ path
        ++ Js.dq ++ ">" in
    (forall tags,
       Cjs.filePatternToScriptTags e pattern o = Ok tags <->
       Forall2 (fun file tag =>
                  exists path,
                    EmittedPath e (Cjs.ignore o) (Cjs.etag o) file path /\
                    tag = "<script src=" ++ Js.dq ++ path ++ Js.dq ++ attribute
                            ++ "></script>") files tags) /\
    (Cjs.etag o = false ->
     Cjs.filePatternToScriptTags e pattern o =
       Ok (map (fun file =>
                  "<script src=" ++ Js.dq
                    ++ match Cjs.ignore o with
                       | Some ig => Js.slice (String.length ig) file
                       | None => file
                       end ++ Js.dq ++ attribute ++ "></script>") files)) /\
    (forall path,
       Cjs.attributes o path =
         ("src=" ++ Js.dq ++ path ++ Js.dq)
           :: (if Cjs.async o then ["async"] else if Cjs.defer o then ["defer"] else []) /\
       ~ (In "async" (Cjs.attributes o path) /\ In "defer" (Cjs.attributes o path))) /\
    (forall mo tags,
       Mjs.inline mo = false ->
       (Mjs.filePatternToScriptTags e pattern mo = Ok tags <->
        Forall2 (fun file tag =>
                   exists path,
                     EmittedPath e (Mjs.ignore mo) (Mjs.etag mo) file path /\
                     tag = "<script src=" ++ Js.dq ++ path ++ Js.dq ++ "></script>")
          files tags)) /\
    (forall so sheets links,
       Cjs.sInline so = false ->
       Cjs.patternToFileNames e pattern ".css" = Ok sheets ->
       (Cjs.filePatternToStyleTags e pattern so = Ok links <->
        Forall2 (fun file tag =>
                   exists path,
                     EmittedPath e (Cjs.sIgnore so) (Cjs.sEtag so) file path /\
                     tag = link path) sheets links)) /\
    (forall mo sheets links,
       Mjs.inline mo = false ->
       Mjs.patternToFileNames e pattern ".css" = Ok sheets ->
       (Mjs.filePatternToStyleTags e pattern mo = Ok links <->
        Forall2 (fun file tag =>
                   exists path,
                     EmittedPath e (Mjs.ignore mo) (Mjs.etag mo) file path /\
                     tag = link path) sheets links)).
Proof.
  intros e o pattern files Hi H attribute link.
  split; [|split; [|split; [|split; [|split]]]].
  - intro tags. unfold Cjs.filePatternToScriptTags.
    apply (tags_of_files tags (Cjs.scriptTag e o) _ H). intros file tag.
    unfold Cjs.scriptTag. rewrite Hi.
    change (Cjs.appendETagSHAToFilename e) with (Mjs.appendETagSHAToFilename e).
    rewrite (linked_path_iff e (Cjs.ignore o) (Cjs.etag o) file tag
               (fun path => "<script " ++ Js.join " " (Cjs.attributes o path)
                              ++ "></script>")).
    split; intros [path [E ->]]; exists path; (split; [exact E|]);
      [|symmetry]; apply script_tag_text.
  - intro He. unfold Cjs.filePatternToScriptTags. rewrite H. cbn [bind].
    apply mapM_pure. intros file _. unfold Cjs.scriptTag. rewrite Hi, He.
    cbn [bind]. f_equal. apply script_tag_text.
  - intro path. split; [|apply attributes_never_both].
    unfold Cjs.attributes. now destruct (Cjs.async o), (Cjs.defer o).
  - intros mo tags Hm. unfold Mjs.filePatternToScriptTags.
    change (Cjs.patternToFileNames e pattern ".js")
      with (Mjs.patternToFileNames e pattern ".js") in H.
    apply (tags_of_files tags (Mjs.scriptTag e mo) _ H). intros file tag.
    unfold Mjs.scriptTag. rewrite Hm.
    apply (linked_path_iff e (Mjs.ignore mo) (Mjs.etag mo) file tag
             (fun path => "<script src=" ++ Js.dq ++ path ++ Js.dq ++ "></script>")).
  - intros so sheets links Hs Hc. unfold Cjs.filePatternToStyleTags.
    apply (tags_of_files links (Cjs.styleTag e so) _ Hc). intros file tag.
    unfold Cjs.styleTag. rewrite Hs.
    change (Cjs.appendETagSHAToFilename e) with (Mjs.appendETagSHAToFilename e).
    apply (linked_path_iff e (Cjs.sIgnore so) (Cjs.sEtag so) file tag link).
  - intros mo sheets links Hm Hc. unfold Mjs.filePatternToStyleTags.
    apply (tags_of_files links (Mjs.styleTag e mo) _ Hc). intros file tag.
    unfold Mjs.styleTag. rewrite Hm.
    apply (linked_path_iff e (Mjs.ignore mo) (Mjs.etag mo) file tag link).
Qed.

Lemma script_tag_async_wins_witness :
  Cjs.inline Demo.asyncAndDefer = false /\
  Cjs.patternToFileNames Demo.site "dist" ".js" = Ok ["dist/app.js"; "dist/vendor.js"] /\
  Cjs.filePatternToScriptTags Demo.site "dist" Demo.asyncAndDefer =
    Ok [ "<script src=" ++ Js.dq ++ "dist/app.js" ++ Js.dq ++ " async></script>";
         "<script src=" ++ Js.dq ++ "dist/vendor.js" ++ Js.dq ++ " async></script>" ].
Proof.
  split; [reflexivity|]. split; [reflexivity|].
  exact (proj1 (proj2 (@script_tag_async_wins Demo.site Demo.asyncAndDefer "dist"
                         ["dist/app.js"; "dist/vendor.js"] eq_refl eq_refl))
           eq_refl).
Defined.

(** ** The two source files side by side *)

(** C10.  When neither async nor defer is requested, the tag generators of
    the two source files return the same result (the same fragments, or the
    same error) for every environment, pattern and option set, and their
    pipelines, revisions and remove conditions coincide, so the same
    document is transformed into the same output. *)
Theorem implementations_agree_without_async_defer :
  forall (e : Env) (pattern : string) (o : Cjs.Options),
    Cjs.asyncOpt o = false ->
    Cjs.deferOpt o = false ->
    Cjs.filePatternToScriptTags e pattern (Cjs.scriptOptions o) =
      Mjs.filePatternToScriptTags e pattern (Mjs.tagOptions (withoutAsyncDefer o)) /\
    Cjs.filePatternToStyleTags e pattern (Cjs.styleOptions o) =
      Mjs.filePatternToStyleTags e pattern (Mjs.tagOptions (withoutAsyncDefer o)) /\
    Cjs.revision e (Cjs.hash o) = Mjs.revision e (Mjs.hash (withoutAsyncDefer o)) /\
    Cjs.removeCondition (Cjs.remove o) =
      Mjs.removeCondition (Mjs.remove (withoutAsyncDefer o)) /\
    (forall (jsFiles cssFiles : list string) (rev rc doc : string),
       through (Cjs.transform jsFiles cssFiles rev rc) doc =
       through (Mjs.transform jsFiles cssFiles rev rc) doc).
Proof.
  intros e pattern o Ha Hd. repeat apply conj.
  - unfold Cjs.filePatternToScriptTags, Mjs.filePatternToScriptTags.
    change (Cjs.patternToFileNames e pattern ".js")
      with (Mjs.patternToFileNames e pattern ".js").
    destruct (Mjs.patternToFileNames e pattern ".js") as [files|x]; [|reflexivity].
    cbn [bind]. apply mapM_ext. intro file.
    unfold Cjs.scriptOptions, Mjs.tagOptions, withoutAsyncDefer. rewrite Ha, Hd.
    apply scriptTag_same.
  - unfold Cjs.filePatternToStyleTags, Mjs.filePatternToStyleTags.
    change (Cjs.patternToFileNames e pattern ".css")
      with (Mjs.patternToFileNames e pattern ".css").
    destruct (Mjs.patternToFileNames e pattern ".css") as [files|x]; [|reflexivity].
    cbn [bind]. apply mapM_ext. intro file. apply styleTag_same.
  - reflexivity.
  - reflexivity.
  - intros jsFiles cssFiles rev rc doc. now rewrite transform_same.
Qed.

Lemma implementations_agree_without_async_defer_witness :
  Cjs.asyncOpt (Demo.cjsWithJs "dist") = false /\
  Cjs.deferOpt (Demo.cjsWithJs "dist") = false /\
  Cjs.filePatternToScriptTags Demo.site "dist"
    (Cjs.scriptOptions (Demo.cjsWithJs "dist")) =
  Mjs.filePatternToScriptTags Demo.site "dist"
    (Mjs.tagOptions (withoutAsyncDefer (Demo.cjsWithJs "dist"))).
Proof.
  split; [reflexivity|]. split; [reflexivity|].
  exact (proj1 (@implementations_agree_without_async_defer Demo.site "dist"
                  (Demo.cjsWithJs "dist") eq_refl eq_refl)).
Defined.

(** ** Where the code departs from its description *)

(** Without an ignore prefix the digest is the digest of the resolved file. *)
Lemma etag_without_ignore (e : Env) (file : string) :
  Mjs.scriptTag e {| Mjs.inline := false; Mjs.ignore := None; Mjs.etag := true |} file =
  (_ <- createHash e "sha" ;;
   content <- readFile e file ;;
   Ok ("<script src=" ++ Js.dq ++ (file ++ "?etag=" ++ shaHex e content) ++ Js.dq
         ++ "></script>")).
Proof.
  unfold Mjs.scriptTag, Mjs.appendETagSHAToFilename. cbn [Mjs.inline Mjs.ignore Mjs.etag].
  destruct (createHash e "sha") as [[]|x]; [|reflexivity]. cbn [bind].
  now destruct (readFile e file).
Qed.

(** C6 (code defect).  With an ignore prefix, [appendETagSHAToFilename]
    receives the sliced path and reads that file: for [dist/app.js] and the
    prefix [dist/] it reads [app.js].  When no such file exists the read
    fails and no tag is produced; when another file has that name, its
    digest is emitted in place of the digest of [dist/app.js]. *)
Theorem etag_digest_reads_the_sliced_path :
  Mjs.patternToFileNames Demo.site "dist/app.js" ".js" = Ok ["dist/app.js"] /\
  readFile Demo.site "dist/app.js" = Ok "A" /\
  Mjs.filePatternToScriptTags Demo.site "dist/app.js" Demo.stripAndTag =
    Err (SystemError "ENOENT" "app.js") /\
  Cjs.filePatternToScriptTags Demo.site "dist/app.js" Demo.stripAndTagScript =
    Err (SystemError "ENOENT" "app.js") /\
  Mjs.filePatternToStyleTags Demo.site "dist/app.css" Demo.stripAndTag =
    Err (SystemError "ENOENT" "app.css") /\
  readFile Demo.siteWithStray "dist/app.js" = Ok "A" /\
  Mjs.filePatternToScriptTags Demo.siteWithStray "dist/app.js" Demo.stripAndTag =
    Ok [ "<script src=" ++ Js.dq ++ "app.js?etag="
           ++ shaHex Demo.siteWithStray "stray" ++ Js.dq ++ "></script>" ] /\
  shaHex Demo.siteWithStray "stray" <> shaHex Demo.siteWithStray "A".
Proof. vm_compute. repeat split; discriminate. Qed.

(** The CommonJS file reports a missing path of a pattern without magic
    with the pattern in the message. *)
Lemma Cjs_missing_js_path (e : Env) (o : Cjs.Options) (inp pattern : string)
  (x : JsError) :
  Cjs.input o = Some inp ->
  lstat e (Cjs.getFullPath e inp) = Ok StFile ->
  Cjs.given (Cjs.js o) = Some pattern ->
  hasMagic e pattern = false ->
  lstat e pattern = Err x ->
  Cjs.main e o = Exit 1 ("File or folder '" ++ pattern ++ "' not found").
Proof.
  intros Hi Hl Hj Hm Hp. unfold Cjs.main. rewrite Hi, Hl, Hj.
  cbn [isDirectory isFile negb].
  unfold Cjs.filePatternToScriptTags, Cjs.patternToFileNames.
  rewrite Hm, Hp. reflexivity.
Qed.

(** In the ES module the same failure never reaches [handleError]. *)
Lemma Mjs_missing_js_path (e : Env) (o : Mjs.Options) (inp pattern : string)
  (x : JsError) :
  Mjs.input o = Some inp ->
  lstat e (Mjs.getFullPath e inp) = Ok StFile ->
  Mjs.given (Mjs.js o) = Some pattern ->
  hasMagic e pattern = false ->
  lstat e pattern = Err x ->
  Mjs.main e o = Uncaught (ReferenceError "js").
Proof.
  intros Hi Hl Hj Hm Hp. unfold Mjs.main. rewrite Hi, Hl, Hj.
  cbn [isDirectory isFile negb].
  unfold Mjs.filePatternToScriptTags, Mjs.patternToFileNames.
  rewrite Hm, Hp. reflexivity.
Qed.

(** C8 (code defect).  For the missing path [missing.js] (and
    [missing.css]) the ES module ends with the uncaught ReferenceError of its
    own catch block, whose template reads the unbound [js] (or [css]); the
    "File or folder ... not found" message naming the pattern is produced by
    the CommonJS file only. *)
Theorem missing_path_message_only_in_commonjs :
  lstat Demo.site "missing.js" = Err (SystemError "ENOENT" "missing.js") /\
  Mjs.main Demo.site (Demo.mjsWithJs "missing.js") = Uncaught (ReferenceError "js") /\
  Mjs.main Demo.site (Demo.mjsWithCss "missing.css") = Uncaught (ReferenceError "css") /\
  Cjs.main Demo.site (Demo.cjsWithJs "missing.js") =
    Exit 1 "File or folder 'missing.js' not found" /\
  Cjs.main Demo.site (Demo.cjsWithCss "missing.css") =
    Exit 1 "File or folder 'missing.css' not found".
Proof. vm_compute. repeat split. Qed.

(** ** Scenarios of the specification *)

(** Removal of the development block leaves the production block intact. *)
Example remove_development_scenario :
  through (Mjs.removeRegions (Mjs.removeCondition (Some "development")))
    ("<!-- remove:development -->X<!-- endremove -->" ++
     "<!-- remove:production -->Y<!-- endremove -->") =
  Ok "<!-- remove:production -->Y<!-- endremove -->".
Proof. vm_compute. reflexivity. Qed.

(** A directory given to [--css] with [--ignore]: bare file names. *)
Example css_directory_with_ignore :
  Cjs.filePatternToStyleTags Demo.site "dist"
    {| Cjs.sInline := false; Cjs.sIgnore := Some "dist/"; Cjs.sEtag := false |} =
  Ok [ "<link rel=" ++ Js.dq ++ "stylesheet" ++ Js.dq ++ " href=" ++ Js.dq ++ "app.css"
         ++ Js.dq ++ ">" ].
Proof. vm_compute. reflexivity. Qed.

(** A single file given to [--css] with [--inline]: a style element. *)
Example css_file_inline :
  Mjs.filePatternToStyleTags Demo.site "dist/app.css"
    {| Mjs.inline := true; Mjs.ignore := None; Mjs.etag := false |} =
  Ok [ "<style>B</style>" ].
Proof. vm_compute. reflexivity. Qed.

(** A symbolic link given as a pattern resolves to nothing. *)
Example other_node_resolves_to_nothing :
  Mjs.patternToFileNames Demo.site "link" ".js" = Ok [].
Proof. reflexivity. Qed.

(** Both inject stages and the remove stage in one run. *)
Example full_pipeline :
  through
    (Mjs.transform
       [ "<script src=a.js></script>"; "<script src=b.js></script>" ]
       [ "<link href=a.css>" ] "0a1b2c" "development")
    Demo.template =
  Ok ("<link href=a.css>" ++
      "<script src=a.js></script>" ++ Js.nl ++ "<script src=b.js></script>" ++
      "<!-- remove: -->E<!-- endremove -->" ++
      "<!-- 0a1b2c -->").
Proof. vm_compute. reflexivity. Qed.

(** The quotes around a glob are dropped before the glob library is called. *)
Example quoted_glob_is_unwrapped :
  unwrapQuotes "'**/*.js'" = "**/*.js" /\ unwrapQuotes "dist" = "dist".
Proof. split; reflexivity. Qed.

(** * Further properties of the sources *)

(** ** The remove condition, for every argument *)

Section RemoveConditionTotal.

Lemma split_spec (sep : ascii) (s : string) :
  Js.hasChar sep (snd (Js.split sep s)) = false /\
  ((fst (Js.split sep s) = [] /\ s = snd (Js.split sep s)) \/
   (fst (Js.split sep s) <> [] /\
    exists before, s = before ++ String sep (snd (Js.split sep s)))).
Proof.
  induction s as [|c s [Hn IH]]; [simpl; auto|].
  cbn [Js.split]. destruct (Js.split sep s) as [pieces last]. cbn [fst snd] in *.
  destruct (Ascii.eqb_spec c sep) as [->|Hc].
  - assert (E : snd (match pieces with
                     | [] => ([""], last)
                     | p :: ps => ("" :: p :: ps, last)
                     end) = last) by now destruct pieces.
    rewrite E. split; [exact Hn|]. right. split; [now destruct pieces|].
    destruct IH as [[_ ->]|[_ [before ->]]].
    + now exists "".
    + now exists (String sep before).
  - destruct IH as [[-> ->]|[Hp [before ->]]]; cbn [fst snd].
    + split; [|now left]. cbn [Js.hasChar]. rewrite Hn, orb_false_r.
      apply Ascii.eqb_neq. congruence.
    + destruct pieces as [|p ps]; [congruence|]. cbn [fst snd].
      split; [exact Hn|]. right. split; [discriminate|].
      now exists (String c before).
Qed.

End RemoveConditionTotal.

(** X1.  For every [--remove] argument, present or not, the condition the
    two files compute is its last colon-separated token: it holds no colon,
    and the argument is that token or ends with a colon followed by it. *)
Theorem removeCondition_is_the_last_token :
  forall arg : option string,
    LastToken arg (Mjs.removeCondition arg) /\
    LastToken arg (Cjs.removeCondition arg) /\
    Js.hasChar ":"%char (Mjs.removeCondition arg) = false.
Proof.
  assert (H : forall arg, LastToken arg (Mjs.removeCondition arg)).
  { intros [a|]; [|reflexivity]. unfold LastToken, Mjs.removeCondition.
    destruct a as [|c a]; [cbn; auto|]. cbn [Js.truthy]. unfold Js.splitPop.
    destruct (split_spec ":"%char (String c a)) as [Hn [[_ E]|[_ [before E]]]].
    - split; [exact Hn|]. now left.
    - split; [exact Hn|]. right. now exists before. }
  intro arg. split; [apply H|]. split; [apply H|].
  specialize (H arg). destruct arg as [a|]; [apply H | reflexivity].
Qed.

(** ** The quotes around a glob *)

Section Quotes.

Lemma rev_append (a b acc : string) : Js.rev (a ++ b) acc = Js.rev b (Js.rev a acc).
Proof. revert acc; induction a as [|c a IH]; intro acc; simpl; auto. Qed.

Lemma rev_rev (s acc acc2 : string) :
  Js.rev (Js.rev s acc) acc2 = Js.rev acc (s ++ acc2).
Proof.
  revert acc acc2; induction s as [|c s IH]; intros acc acc2; [reflexivity|].
  cbn [Js.rev append]. now rewrite IH.
Qed.

Lemma rev_involutive (s : string) : Js.rev (Js.rev s "") "" = s.
Proof. rewrite rev_rev. cbn. apply append_nil_r. Qed.

End Quotes.

(** X2.  The unwrapping applied to a glob pattern removes exactly one layer
    of quotes: a non-empty text without line terminators put between two
    quote characters (of either kind, not necessarily the same) comes back
    as it was, and a pattern that does not begin with a quote is passed on
    unchanged. *)
Theorem unwrapQuotes_one_layer :
  forall (q q' : ascii) (inner : string),
    isQuote q = true ->
    isQuote q' = true ->
    inner <> "" ->
    noLineTerminator inner = true ->
    unwrapQuotes (String q (inner ++ String q' "")) = inner /\
    (forall c rest, isQuote c = false -> unwrapQuotes (String c rest) = String c rest).
Proof.
  intros q q' inner Hq Hq' Hne Hl. split.
  - unfold unwrapQuotes. rewrite rev_append. cbn [Js.rev].
    rewrite rev_involutive, Hq, Hq', Hl.
    destruct inner; [congruence | reflexivity].
  - intros c rest Hc. unfold unwrapQuotes.
    destruct (Js.rev rest "") as [|x y]; [reflexivity|]. now rewrite Hc.
Qed.

Lemma unwrapQuotes_one_layer_witness :
  isQuote "'"%char = true /\
  isQuote (ascii_of_nat 34) = true /\
  "**/*.css" <> "" /\
  noLineTerminator "**/*.css" = true /\
  unwrapQuotes (String "'"%char ("**/*.css" ++ String (ascii_of_nat 34) "")) = "**/*.css".
Proof.
  assert (N : "**/*.css" <> "") by discriminate.
  split; [reflexivity|]. split; [reflexivity|]. split; [exact N|].
  split; [reflexivity|].
  exact (proj1 (@unwrapQuotes_one_layer "'"%char (ascii_of_nat 34) "**/*.css"
                  eq_refl eq_refl N eq_refl)).
Defined.

(** ** More on the pattern resolver *)

(** X3.  The extension only filters the listing of a directory: for a glob
    pattern, and for a pattern that [lstat] does not report as a directory,
    the resolver of both files returns the same result whatever the
    extension, so a regular file given to [--js] is injected as a script
    whatever its name ends with. *)
Theorem resolver_extension_only_filters_directories :
  forall (e : Env) (pattern ext ext' : string),
    hasMagic e pattern = true \/ lstat e pattern <> Ok StDirectory ->
    Mjs.patternToFileNames e pattern ext = Mjs.patternToFileNames e pattern ext' /\
    Cjs.patternToFileNames e pattern ext = Cjs.patternToFileNames e pattern ext' /\
    (hasMagic e pattern = false -> lstat e pattern = Ok StFile ->
     Mjs.filePatternToScriptTags e pattern
       {| Mjs.inline := false; Mjs.ignore := None; Mjs.etag := false |} =
       Ok ["<script src=" ++ Js.dq ++ pattern ++ Js.dq ++ "></script>"]).
Proof.
  intros e pattern ext ext' H.
  assert (E : Mjs.patternToFileNames e pattern ext = Mjs.patternToFileNames e pattern ext').
  { unfold Mjs.patternToFileNames. destruct (hasMagic e pattern); [reflexivity|].
    destruct H as [H|H]; [discriminate|].
    destruct (lstat e pattern) as [[| |]|x]; try reflexivity. congruence. }
  split; [exact E|]. split; [exact E|].
  intros Hm Hl. unfold Mjs.filePatternToScriptTags, Mjs.patternToFileNames.
  rewrite Hm, Hl. reflexivity.
Qed.

Lemma resolver_extension_only_filters_directories_witness :
  (hasMagic Demo.site "dist/app.css" = true \/
   lstat Demo.site "dist/app.css" <> Ok StDirectory) /\
  Mjs.patternToFileNames Demo.site "dist/app.css" ".js" =
  Mjs.patternToFileNames Demo.site "dist/app.css" ".css".
Proof.
  assert (H : hasMagic Demo.site "dist/app.css" = true \/
              lstat Demo.site "dist/app.css" <> Ok StDirectory)
    by (right; discriminate).
  split; [exact H|].
  exact (proj1 (@resolver_extension_only_filters_directories
                  Demo.site "dist/app.css" ".js" ".css" H)).
Defined.

(** X4.  For a pattern without glob magic the resolver of both files fails
    exactly when [lstat] rejects, or when the pattern is a directory that
    [readdir] rejects, and it passes that error on unchanged; a regular file
    or another kind of node never makes it fail. *)
Theorem resolver_failure_is_the_file_system_error :
  forall (e : Env) (pattern ext : string) (x : JsError),
    hasMagic e pattern = false ->
    (Mjs.patternToFileNames e pattern ext = Err x <->
     lstat e pattern = Err x \/
     (lstat e pattern = Ok StDirectory /\ readdir e pattern = Err x)) /\
    (Cjs.patternToFileNames e pattern ext = Err x <->
     lstat e pattern = Err x \/
     (lstat e pattern = Ok StDirectory /\ readdir e pattern = Err x)).
Proof.
  intros e pattern ext x Hm.
  assert (H : Mjs.patternToFileNames e pattern ext = Err x <->
              lstat e pattern = Err x \/
              (lstat e pattern = Ok StDirectory /\ readdir e pattern = Err x)).
  { unfold Mjs.patternToFileNames. rewrite Hm.
    destruct (lstat e pattern) as [[| |]|y]; cbn [bind isDirectory isFile].
    - destruct (readdir e pattern) as [names|y]; cbn [bind]; split.
      + discriminate.
      + intros [D|[_ D]]; discriminate.
      + intro E. right. split; [reflexivity|]. congruence.
      + intros [D|[_ D]]; [discriminate | congruence].
    - split; [discriminate | intros [D|[D _]]; discriminate].
    - split; [discriminate | intros [D|[D _]]; discriminate].
    - split; [intro E; left; congruence | intros [D|[D _]]; congruence]. }
  split; exact H.
Qed.

Lemma resolver_failure_is_the_file_system_error_witness :
  hasMagic Demo.site "missing.js" = false /\
  Mjs.patternToFileNames Demo.site "missing.js" ".js" =
    Err (SystemError "ENOENT" "missing.js").
Proof.
  split; [reflexivity|].
  exact (proj2 (proj1 (@resolver_failure_is_the_file_system_error
                         Demo.site "missing.js" ".js"
                         (SystemError "ENOENT" "missing.js") eq_refl))
           (or_introl eq_refl)).
Defined.

(** ** More on the tag generators *)

(** X5.  With [--inline], in both files, the generators succeed exactly when
    the resolver does and every resolved file can be read, and they return,
    file by file and in the order of the files, the content of the file at
    its resolved path between [<script>] and [</script>] (or [<style>] and
    [</style>]), unescaped; the ignore prefix, the etag, async and defer
    have no effect. *)
Theorem inline_tags_wrap_the_resolved_files :
  forall (e : Env) (pattern : string) (tags : list string)
         (so : Cjs.ScriptOptions) (co : Cjs.StyleOptions) (mo : Mjs.TagOptions),
    Cjs.inline so = true ->
    Cjs.sInline co = true ->
    Mjs.inline mo = true ->
    let wrapped (opening closing : string) (ext : string) :=
      exists files,
        Mjs.patternToFileNames e pattern ext = Ok files /\
        Forall2 (fun file tag =>
                   exists content,
                     readFile e file = Ok content /\
                     tag = opening ++ content ++ closing) files tags in
    (Cjs.filePatternToScriptTags e pattern so = Ok tags <->
     wrapped "<script>" "</script>" ".js") /\
    (Mjs.filePatternToScriptTags e pattern mo = Ok tags <->
     wrapped "<script>" "</script>" ".js") /\
    (Cjs.filePatternToStyleTags e pattern co = Ok tags <->
     wrapped "<style>" "</style>" ".css") /\
    (Mjs.filePatternToStyleTags e pattern mo = Ok tags <->
     wrapped "<style>" "</style>" ".css").
Proof.
  intros e pattern tags so co mo Hs Hc Hm wrapped. subst wrapped. cbn beta.
  unfold Cjs.filePatternToScriptTags, Mjs.filePatternToScriptTags,
    Cjs.filePatternToStyleTags, Mjs.filePatternToStyleTags.
  change (Cjs.patternToFileNames e pattern) with (Mjs.patternToFileNames e pattern).
  split; [|split; [|split]]; apply generator_iff; intros file tag.
  - unfold Cjs.scriptTag. rewrite Hs. apply read_then_wrap.
  - unfold Mjs.scriptTag. rewrite Hm. apply read_then_wrap.
  - unfold Cjs.styleTag. rewrite Hc. apply read_then_wrap.
  - unfold Mjs.styleTag. rewrite Hm. apply read_then_wrap.
Qed.

Lemma inline_tags_wrap_the_resolved_files_witness :
  Cjs.inline
    {| Cjs.async := true; Cjs.defer := false; Cjs.inline := true;
       Cjs.ignore := Some "dist/"; Cjs.etag := true |} = true /\
  exists files,
    Mjs.patternToFileNames Demo.site "dist" ".js" = Ok files /\
    Forall2 (fun file tag =>
               exists content,
                 readFile Demo.site file = Ok content /\
                 tag = "<script>" ++ content ++ "</script>")
      files ["<script>A</script>"; "<script>V</script>"].
Proof.
  split; [reflexivity|].
  exact (proj1 (proj1 (@inline_tags_wrap_the_resolved_files Demo.site "dist"
                  ["<script>A</script>"; "<script>V</script>"]
                  {| Cjs.async := true; Cjs.defer := false; Cjs.inline := true;
                     Cjs.ignore := Some "dist/"; Cjs.etag := true |}
                  {| Cjs.sInline := true; Cjs.sIgnore := None; Cjs.sEtag := false |}
                  {| Mjs.inline := true; Mjs.ignore := None; Mjs.etag := false |}
                  eq_refl eq_refl eq_refl)) eq_refl).
Defined.

Section EtagFacts.



End EtagFacts.


(** A generator whose loop body cannot fail fails as the resolver does and
    returns one tag for each file. *)
Lemma pure_generator (names : Result (list string))
  (tag : string -> Result string) (g : string -> string) :
  (forall file, tag file = Ok (g file)) ->
  (forall x, (files <- names ;; mapM tag files) = Err x <-> names = Err x) /\
  (forall files,
     names = Ok files ->
     exists tags,
       (files <- names ;; mapM tag files) = Ok tags /\
       List.length tags = List.length files).
Proof.
  intro H. split.
  - intro x. destruct names as [files|y]; cbn [bind]; [|tauto].
    rewrite (mapM_pure _ _ files (fun file _ => H file)). split; discriminate.
  - intros files ->. cbn [bind].
    rewrite (mapM_pure _ _ files (fun file _ => H file)).
    eexists. split; [reflexivity|]. apply length_map.
Qed.

(** X7.  In linked mode without [--etag] the generators of both files read
    no asset: their result is the same whatever [readFile] answers, they fail
    exactly when the resolver fails, with its error, and otherwise return one
    tag for each resolved file. *)
Theorem linked_tags_without_etag_read_no_file :
  forall (e : Env) (read : string -> Result string) (pattern : string)
         (so : Cjs.ScriptOptions) (co : Cjs.StyleOptions) (mo : Mjs.TagOptions),
    Cjs.inline so = false -> Cjs.etag so = false ->
    Cjs.sInline co = false -> Cjs.sEtag co = false ->
    Mjs.inline mo = false -> Mjs.etag mo = false ->
    (Cjs.filePatternToScriptTags (withReadFile e read) pattern so =
       Cjs.filePatternToScriptTags e pattern so /\
     Cjs.filePatternToStyleTags (withReadFile e read) pattern co =
       Cjs.filePatternToStyleTags e pattern co /\
     Mjs.filePatternToScriptTags (withReadFile e read) pattern mo =
       Mjs.filePatternToScriptTags e pattern mo /\
     Mjs.filePatternToStyleTags (withReadFile e read) pattern mo =
       Mjs.filePatternToStyleTags e pattern mo) /\
    (forall x,
       (Cjs.filePatternToScriptTags e pattern so = Err x <->
        Cjs.patternToFileNames e pattern ".js" = Err x) /\
       (Cjs.filePatternToStyleTags e pattern co = Err x <->
        Cjs.patternToFileNames e pattern ".css" = Err x) /\
       (Mjs.filePatternToScriptTags e pattern mo = Err x <->
        Mjs.patternToFileNames e pattern ".js" = Err x) /\
       (Mjs.filePatternToStyleTags e pattern mo = Err x <->
        Mjs.patternToFileNames e pattern ".css" = Err x)) /\
    (forall files,
       (Cjs.patternToFileNames e pattern ".js" = Ok files ->
        exists tags,
          Cjs.filePatternToScriptTags e pattern so = Ok tags /\
          List.length tags = List.length files) /\
       (Cjs.patternToFileNames e pattern ".css" = Ok files ->
        exists tags,
          Cjs.filePatternToStyleTags e pattern co = Ok tags /\
          List.length tags = List.length files) /\
       (Mjs.patternToFileNames e pattern ".js" = Ok files ->
        exists tags,
          Mjs.filePatternToScriptTags e pattern mo = Ok tags /\
          List.length tags = List.length files) /\
       (Mjs.patternToFileNames e pattern ".css" = Ok files ->
        exists tags,
          Mjs.filePatternToStyleTags e pattern mo = Ok tags /\
          List.length tags = List.length files)).
Proof.
  intros e read pattern so co mo Hs Hse Hc Hce Hm Hme.
  assert (Sc : forall e0 file,
             Cjs.scriptTag e0 so file =
             Ok ("<script "
                   ++ Js.join " "
                        (Cjs.attributes so
                           match Cjs.ignore so with
                           | Some ig => Js.slice (String.length ig) file
                           | None => file
                           end) ++ "></script>")).
  { intros e0 file. unfold Cjs.scriptTag. now rewrite Hs, Hse. }
  assert (Ct : forall e0 file,
             Cjs.styleTag e0 co file =
             Ok ("<link rel=" ++ Js.dq ++ "stylesheet" ++ Js.dq ++ " href=" ++ Js.dq
                   ++ match Cjs.sIgnore co with
                      | Some ig => Js.slice (String.length ig) file
                      | None => file
                      end ++ Js.dq ++ ">")).
  { intros e0 file. unfold Cjs.styleTag. now rewrite Hc, Hce. }
  assert (Ms : forall e0 file,
             Mjs.scriptTag e0 mo file =
             Ok ("<script src=" ++ Js.dq
                   ++ match Mjs.ignore mo with
                      | Some ig => Js.slice (String.length ig) file
                      | None => file
                      end ++ Js.dq ++ "></script>")).
  { intros e0 file. unfold Mjs.scriptTag. now rewrite Hm, Hme. }
  assert (St : forall e0 file,
             Mjs.styleTag e0 mo file =
             Ok ("<link rel=" ++ Js.dq ++ "stylesheet" ++ Js.dq ++ " href=" ++ Js.dq
                   ++ match Mjs.ignore mo with
                      | Some ig => Js.slice (String.length ig) file
                      | None => file
                      end ++ Js.dq ++ ">")).
  { intros e0 file. unfold Mjs.styleTag. now rewrite Hm, Hme. }
  pose proof (pure_generator (Cjs.patternToFileNames e pattern ".js") _ _ (Sc e))
    as [F1 N1].
  pose proof (pure_generator (Cjs.patternToFileNames e pattern ".css") _ _ (Ct e))
    as [F2 N2].
  pose proof (pure_generator (Mjs.patternToFileNames e pattern ".js") _ _ (Ms e))
    as [F3 N3].
  pose proof (pure_generator (Mjs.patternToFileNames e pattern ".css") _ _ (St e))
    as [F4 N4].
  split; [|split].
  - unfold Cjs.filePatternToScriptTags, Mjs.filePatternToScriptTags,
      Cjs.filePatternToStyleTags, Mjs.filePatternToStyleTags.
    change (Cjs.patternToFileNames (withReadFile e read) pattern)
      with (Cjs.patternToFileNames e pattern).
    change (Mjs.patternToFileNames (withReadFile e read) pattern)
      with (Mjs.patternToFileNames e pattern).
    repeat apply conj;
      match goal with
      | |- bind ?m _ = bind ?m _ => destruct m as [files|x]; [|reflexivity]
      end; cbn [bind]; apply mapM_ext; intro file.
    + now rewrite !Sc.
    + now rewrite !Ct.
    + now rewrite !Ms.
    + now rewrite !St.
  - intro x. split; [exact (F1 x)|]. split; [exact (F2 x)|].
    split; [exact (F3 x) | exact (F4 x)].
  - intro files. split; [exact (N1 files)|]. split; [exact (N2 files)|].
    split; [exact (N3 files) | exact (N4 files)].
Qed.

Lemma linked_tags_without_etag_read_no_file_witness :
  Cjs.filePatternToScriptTags
    (withReadFile Demo.site (fun p => Err (SystemError "EACCES" p))) "dist"
    Demo.asyncAndDefer =
  Cjs.filePatternToScriptTags Demo.site "dist" Demo.asyncAndDefer.
Proof.
  exact (proj1 (proj1 (@linked_tags_without_etag_read_no_file Demo.site
                  (fun p => Err (SystemError "EACCES" p)) "dist" Demo.asyncAndDefer
                  {| Cjs.sInline := false; Cjs.sIgnore := None; Cjs.sEtag := false |}
                  {| Mjs.inline := false; Mjs.ignore := None; Mjs.etag := false |}
                  eq_refl eq_refl eq_refl eq_refl eq_refl eq_refl))).
Defined.

(** ** Whole runs *)

Section Runs.



End Runs.


(** X9.  The handled failures.  A run of the CommonJS file that ends through
    [handleError] exits with status 1 and one of four messages, each with its
    cause: no input option; the input is a directory; the input is missing
    or is no regular file; the assets of a given js or css pattern could not
    be generated.  A run of the ES module ends through [handleError] for the
    first three causes only. *)
Theorem handled_failures :
  forall (e : Env) (co : Cjs.Options) (mo : Mjs.Options) (code : nat) (msg : string),
    (Cjs.main e co = Exit code msg ->
     code = 1 /\
     ((Cjs.input co = None /\ msg = "Please specify an input file") \/
      (exists inp,
         Cjs.input co = Some inp /\
         lstat e (Cjs.getFullPath e inp) = Ok StDirectory /\
         msg = "'" ++ Cjs.getFullPath e inp
                 ++ "' is a directory, please specify an input file") \/
      (exists inp,
         Cjs.input co = Some inp /\
         lstat e (Cjs.getFullPath e inp) <> Ok StDirectory /\
         lstat e (Cjs.getFullPath e inp) <> Ok StFile /\
         msg = "File '" ++ Cjs.getFullPath e inp ++ "' not found") \/
      (exists inp p x,
         Cjs.input co = Some inp /\
         lstat e (Cjs.getFullPath e inp) = Ok StFile /\
         ((Cjs.given (Cjs.js co) = Some p /\
           Cjs.filePatternToScriptTags e p (Cjs.scriptOptions co) = Err x) \/
          (Cjs.given (Cjs.css co) = Some p /\
           Cjs.filePatternToStyleTags e p (Cjs.styleOptions co) = Err x)) /\
         msg = "File or folder '" ++ p ++ "' not found"))) /\
    (Mjs.main e mo = Exit code msg ->
     code = 1 /\
     ((Mjs.input mo = None /\ msg = "Please specify an input file") \/
      (exists inp,
         Mjs.input mo = Some inp /\
         lstat e (Mjs.getFullPath e inp) = Ok StDirectory /\
         msg = "'" ++ Mjs.getFullPath e inp
                 ++ "' is a directory, please specify an input file") \/
      (exists inp,
         Mjs.input mo = Some inp /\
         lstat e (Mjs.getFullPath e inp) <> Ok StDirectory /\
         lstat e (Mjs.getFullPath e inp) <> Ok StFile /\
         msg = "File '" ++ Mjs.getFullPath e inp ++ "' not found"))).
Proof.
  intros e co mo code msg. split.
  - unfold Cjs.main, Cjs.handleError.
    destruct (Cjs.input co) as [inp|] eqn:Ei.
    2:{ intro H. injection H as <- <-. split; [reflexivity|]. left. now split. }
    destruct (lstat e (Cjs.getFullPath e inp)) as [[| |]|x] eqn:El;
      cbn [isDirectory isFile negb].
    + intro H. injection H as <- <-. split; [reflexivity|].
      right. left. exists inp. repeat split; auto.
    + destruct (Cjs.given (Cjs.js co)) as [pj|] eqn:Gj.
      * destruct (Cjs.filePatternToScriptTags e pj (Cjs.scriptOptions co))
          as [jsFiles|x] eqn:Ej.
        2:{ intro H. injection H as <- <-. split; [reflexivity|].
            right. right. right. exists inp, pj, x. repeat split; auto. }
        destruct (Cjs.given (Cjs.css co)) as [pc|] eqn:Gc.
        -- destruct (Cjs.filePatternToStyleTags e pc (Cjs.styleOptions co))
             as [cssFiles|x] eqn:Ec.
           2:{ intro H. injection H as <- <-. split; [reflexivity|].
               right. right. right. exists inp, pc, x. repeat split; auto. }
           destruct (Cjs.revision e (Cjs.hash co)); [|discriminate].
           destruct (Cjs.transform _ _ _ _) as [pipe|[]]; try discriminate;
             destruct (inPlace _ _ _); try discriminate;
             destruct (readFile _ _); discriminate.
        -- destruct (Cjs.revision e (Cjs.hash co)); [|discriminate].
           destruct (Cjs.transform _ _ _ _) as [pipe|[]]; try discriminate;
             destruct (inPlace _ _ _); try discriminate;
             destruct (readFile _ _); discriminate.
      * destruct (Cjs.given (Cjs.css co)) as [pc|] eqn:Gc.
        -- destruct (Cjs.filePatternToStyleTags e pc (Cjs.styleOptions co))
             as [cssFiles|x] eqn:Ec.
           2:{ intro H. injection H as <- <-. split; [reflexivity|].
               right. right. right. exists inp, pc, x. repeat split; auto. }
           destruct (Cjs.revision e (Cjs.hash co)); [|discriminate].
           destruct (Cjs.transform _ _ _ _) as [pipe|[]]; try discriminate;
             destruct (inPlace _ _ _); try discriminate;
             destruct (readFile _ _); discriminate.
        -- destruct (Cjs.revision e (Cjs.hash co)); [|discriminate].
           destruct (Cjs.transform _ _ _ _) as [pipe|[]]; try discriminate;
             destruct (inPlace _ _ _); try discriminate;
             destruct (readFile _ _); discriminate.
    + intro H. injection H as <- <-. split; [reflexivity|].
      right. right. left. exists inp. repeat split; congruence.
    + intro H. injection H as <- <-. split; [reflexivity|].
      right. right. left. exists inp. repeat split; congruence.
  - unfold Mjs.main, Mjs.handleError.
    destruct (Mjs.input mo) as [inp|] eqn:Ei.
    2:{ intro H. injection H as <- <-. split; [reflexivity|]. left. now split. }
    destruct (lstat e (Mjs.getFullPath e inp)) as [[| |]|x] eqn:El;
      cbn [isDirectory isFile negb].
    + intro H. injection H as <- <-. split; [reflexivity|].
      right. left. exists inp. repeat split; auto.
    + destruct (Mjs.given (Mjs.js mo)) as [pj|];
        [destruct (Mjs.filePatternToScriptTags e pj (Mjs.tagOptions mo));
         [|discriminate]|];
        (destruct (Mjs.given (Mjs.css mo)) as [pc|];
         [destruct (Mjs.filePatternToStyleTags e pc (Mjs.tagOptions mo));
          [|discriminate]|]);
        (destruct (Mjs.revision e (Mjs.hash mo)); [|discriminate]);
        destruct (Mjs.transform _ _ _ _) as [pipe|[]]; try discriminate;
        destruct (inPlace _ _ _); try discriminate;
        destruct (readFile _ _); discriminate.
    + intro H. injection H as <- <-. split; [reflexivity|].
      right. right. exists inp. repeat split; congruence.
    + intro H. injection H as <- <-. split; [reflexivity|].
      right. right. exists inp. repeat split; congruence.
Qed.

Lemma handled_failures_witness :
  Cjs.main Demo.site (Demo.cjsWithJs "missing.js") =
    Exit 1 "File or folder 'missing.js' not found" /\
  1 = 1.
Proof.
  split; [reflexivity|].
  exact (proj1 (proj1 (@handled_failures Demo.site (Demo.cjsWithJs "missing.js")
                  Demo.mjsOptions 1 "File or folder 'missing.js' not found")
           eq_refl)).
Defined.

Section TwoFiles.

Variable e : Env.
Variable o : Cjs.Options.
Hypothesis noAsync : Cjs.asyncOpt o = false.
Hypothesis noDefer : Cjs.deferOpt o = false.

Lemma scriptTags_same (pattern : string) :
  Cjs.filePatternToScriptTags e pattern (Cjs.scriptOptions o) =
  Mjs.filePatternToScriptTags e pattern (Mjs.tagOptions (withoutAsyncDefer o)).
Proof.
  unfold Cjs.filePatternToScriptTags, Mjs.filePatternToScriptTags.
  change (Cjs.patternToFileNames e pattern ".js")
    with (Mjs.patternToFileNames e pattern ".js").
  destruct (Mjs.patternToFileNames e pattern ".js") as [files|x]; [|reflexivity].
  cbn [bind]. apply mapM_ext. intro file.
  unfold Cjs.scriptOptions, Mjs.tagOptions, withoutAsyncDefer.
  rewrite noAsync, noDefer. apply scriptTag_same.
Qed.

Lemma styleTags_same (pattern : string) :
  Cjs.filePatternToStyleTags e pattern (Cjs.styleOptions o) =
  Mjs.filePatternToStyleTags e pattern (Mjs.tagOptions (withoutAsyncDefer o)).
Proof.
  unfold Cjs.filePatternToStyleTags, Mjs.filePatternToStyleTags.
  change (Cjs.patternToFileNames e pattern ".css")
    with (Mjs.patternToFileNames e pattern ".css").
  destruct (Mjs.patternToFileNames e pattern ".css") as [files|x]; [|reflexivity].
  cbn [bind]. apply mapM_ext. intro file. apply styleTag_same.
Qed.

(** The rest of a run, once the assets are generated, is the same in the
    two files. *)
Lemma after_assets_same (jsFiles cssFiles : list string) (inputFile outputFile : string) :
  match Cjs.revision e (Cjs.hash o) with
  | Err x => Uncaught x
  | Ok rev =>
      match
        Cjs.transform jsFiles cssFiles rev (Cjs.removeCondition (Cjs.remove o))
      with
      | Err NotModelled => OutsideModel
      | Err x => Uncaught x
      | Ok pipe =>
          match
            if inPlace e outputFile inputFile then Ok "" else readFile e inputFile
          with
          | Ok doc => Written outputFile (pipe doc)
          | Err x => Uncaught x
          end
      end
  end =
  match Mjs.revision e (Mjs.hash (withoutAsyncDefer o)) with
  | Err x => Uncaught x
  | Ok rev =>
      match
        Mjs.transform jsFiles cssFiles rev
          (Mjs.removeCondition (Mjs.remove (withoutAsyncDefer o)))
      with
      | Err NotModelled => OutsideModel
      | Err x => Uncaught x
      | Ok pipe =>
          match
            if inPlace e outputFile inputFile then Ok "" else readFile e inputFile
          with
          | Ok doc => Written outputFile (pipe doc)
          | Err x => Uncaught x
          end
      end
  end.
Proof.
  change (Mjs.revision e (Mjs.hash (withoutAsyncDefer o)))
    with (Cjs.revision e (Cjs.hash o)).
  change (Mjs.removeCondition (Mjs.remove (withoutAsyncDefer o)))
    with (Cjs.removeCondition (Cjs.remove o)).
  destruct (Cjs.revision e (Cjs.hash o)) as [rev|x]; [|reflexivity].
  now rewrite transform_same.
Qed.

Lemma mains_agree_or_differ_in_the_catch :
  Cjs.main e o = Mjs.main e (withoutAsyncDefer o) \/
  exists pattern name,
    Cjs.main e o = Exit 1 ("File or folder '" ++ pattern ++ "' not found") /\
    Mjs.main e (withoutAsyncDefer o) = Uncaught (ReferenceError name) /\
    (name = "js" \/ name = "css").
Proof.
  unfold Cjs.main, Mjs.main, Cjs.handleError, Mjs.handleError.
  change (Mjs.input (withoutAsyncDefer o)) with (Cjs.input o).
  change (Mjs.output (withoutAsyncDefer o)) with (Cjs.output o).
  change (Mjs.js (withoutAsyncDefer o)) with (Cjs.js o).
  change (Mjs.css (withoutAsyncDefer o)) with (Cjs.css o).
  change Mjs.given with Cjs.given. change Mjs.getFullPath with Cjs.getFullPath.
  destruct (Cjs.input o) as [inp|]; [|now left].
  destruct (lstat e (Cjs.getFullPath e inp)) as [[| |]|x];
    cbn [isDirectory isFile negb]; try now left.
  destruct (Cjs.given (Cjs.js o)) as [pj|].
  - rewrite <- scriptTags_same.
    destruct (Cjs.filePatternToScriptTags e pj (Cjs.scriptOptions o)) as [jsFiles|x].
    2:{ right. exists pj, "js". auto. }
    destruct (Cjs.given (Cjs.css o)) as [pc|].
    + rewrite <- styleTags_same.
      destruct (Cjs.filePatternToStyleTags e pc (Cjs.styleOptions o)) as [cssFiles|x].
      2:{ right. exists pc, "css". auto. }
      left. apply after_assets_same.
    + left. apply after_assets_same.
  - destruct (Cjs.given (Cjs.css o)) as [pc|].
    + rewrite <- styleTags_same.
      destruct (Cjs.filePatternToStyleTags e pc (Cjs.styleOptions o)) as [cssFiles|x].
      2:{ right. exists pc, "css". auto. }
      left. apply after_assets_same.
    + left. apply after_assets_same.
Qed.

End TwoFiles.

(** X10.  Whole runs of the two files.  When neither async nor defer is
    requested, the CommonJS file and the ES module end in the same way on
    the same environment and options (the same exit, the same uncaught
    error, or the same text written to the same file), except when the assets
    of a given pattern cannot be generated: there the CommonJS file exits
    with its "File or folder ... not found" message and the ES module ends
    with the uncaught ReferenceError of its catch block. *)
Theorem runs_agree_except_in_the_catch_blocks :
  forall (e : Env) (o : Cjs.Options),
    Cjs.asyncOpt o = false ->
    Cjs.deferOpt o = false ->
    Cjs.main e o = Mjs.main e (withoutAsyncDefer o) \/
    exists pattern name,
      Cjs.main e o = Exit 1 ("File or folder '" ++ pattern ++ "' not found") /\
      Mjs.main e (withoutAsyncDefer o) = Uncaught (ReferenceError name) /\
      (name = "js" \/ name = "css").
Proof. exact mains_agree_or_differ_in_the_catch. Qed.

Lemma runs_agree_except_in_the_catch_blocks_witness :
  Cjs.asyncOpt Demo.cjsOptions = false /\
  Cjs.deferOpt Demo.cjsOptions = false /\
  (Cjs.main Demo.site Demo.cjsOptions =
     Mjs.main Demo.site (withoutAsyncDefer Demo.cjsOptions) \/
   exists pattern name,
     Cjs.main Demo.site Demo.cjsOptions =
       Exit 1 ("File or folder '" ++ pattern ++ "' not found") /\
     Mjs.main Demo.site (withoutAsyncDefer Demo.cjsOptions) =
       Uncaught (ReferenceError name) /\
     (name = "js" \/ name = "css")).
Proof.
  split; [reflexivity|]. split; [reflexivity|].
  exact (@runs_agree_except_in_the_catch_blocks Demo.site Demo.cjsOptions
           eq_refl eq_refl).
Defined.

(** ** More on the stages *)

Section Occurrences.

Lemma occurs_intro (p a b : string) : Text.occurs p (a ++ p ++ b) = true.
Proof.
  unfold Text.occurs. destruct (Text.cut p (a ++ p ++ b)) eqn:C; [reflexivity|].
  apply cut_None_suffix, cut_None_prefix in C.
  rewrite stripPrefix_append in C. discriminate.
Qed.

Lemma occurs_inv (p s : string) :
  Text.occurs p s = true -> exists a b, s = a ++ p ++ b.
Proof.
  unfold Text.occurs. destruct (Text.cut p s) as [[a b]|] eqn:C; [|discriminate].
  intros _. exists a, b. now apply cut_sound.
Qed.

Lemma occurs_inside (p m a b : string) :
  Text.occurs p m = true -> Text.occurs p (a ++ m ++ b) = true.
Proof.
  intro H. apply occurs_inv in H as [x [y ->]].
  replace (a ++ (x ++ p ++ y) ++ b) with ((a ++ x) ++ p ++ (y ++ b))
    by now rewrite !append_assoc.
  apply occurs_intro.
Qed.

Lemma join_holds_each (sep : string) (frags : list string) (fragment : string) :
  In fragment frags -> exists a b, Js.join sep frags = a ++ fragment ++ b.
Proof.
  induction frags as [|f frags IH]; [contradiction|].
  intros [->|H].
  - destruct frags as [|g frags].
    + exists "", "". cbn. now rewrite append_nil_r.
    + exists "", (sep ++ Js.join sep (g :: frags)). reflexivity.
  - destruct (IH H) as [a [b E]]. destruct frags as [|g frags]; [contradiction|].
    exists (f ++ sep ++ a), b. cbn [Js.join] in *. rewrite E.
    now rewrite !append_assoc.
Qed.

End Occurrences.

Section InjectedText.
Import RegExp Shape.

Lemma injected_occurs (src start stop : string) (frags : list string)
  (doc text fragment before rest body after : string) :
  compile src = Ok (regionRegex start stop) ->
  start <> "" ->
  In fragment frags ->
  Text.occurs text fragment = true ->
  Text.cut start doc = Some (before, rest) ->
  Text.cut stop rest = Some (body, after) ->
  exists out,
    through (replaceStream src
               (ByFunction (fun m0 => if nonEmpty frags then Js.join Js.nl frags else m0)))
      doc = Ok out /\
    Text.occurs text out = true.
Proof.
  intros C Hs Hin Ht C1 C2. unfold through, replaceStream. rewrite C. cbn [bind].
  eexists. split; [reflexivity|].
  rewrite replaceAll_region by exact Hs. rewrite C1, C2.
  match goal with |- context [replaceAll ?r ?f after] => set (tail := replaceAll r f after) end.
  clearbody tail.
  destruct frags as [|f frags]; [contradiction|]. cbn [nonEmpty].
  destruct (join_holds_each Js.nl (f :: frags) fragment Hin) as [a [b E]].
  rewrite E. apply occurs_inside. now apply occurs_inside.
Qed.

End InjectedText.

(** X11.  When the document holds an inject region (a start marker with an
    end marker after it) and there is at least one fragment, every fragment,
    and so every text that occurs in a fragment such as the path of an
    injected file, occurs in the output of the inject stage; this holds for
    the js and the css stage of both files. *)
Theorem injected_fragments_occur_in_the_output :
  forall (frags : list string) (doc text fragment before rest body after : string),
    In fragment frags ->
    Text.occurs text fragment = true ->
    (Text.cut "<!-- inject:js -->" doc = Some (before, rest) ->
     Text.cut "<!-- endinject -->" rest = Some (body, after) ->
     (exists out,
        through (Mjs.injectJs frags) doc = Ok out /\ Text.occurs text out = true) /\
     (exists out,
        through (Cjs.injectJs frags) doc = Ok out /\ Text.occurs text out = true)) /\
    (Text.cut "<!-- inject:css -->" doc = Some (before, rest) ->
     Text.cut "<!-- endinject -->" rest = Some (body, after) ->
     (exists out,
        through (Mjs.injectCss frags) doc = Ok out /\ Text.occurs text out = true) /\
     (exists out,
        through (Cjs.injectCss frags) doc = Ok out /\ Text.occurs text out = true)).
Proof.
  intros frags doc text fragment before rest body after Hin Ht.
  assert (Njs : "<!-- inject:js -->" <> "") by discriminate.
  assert (Ncss : "<!-- inject:css -->" <> "") by discriminate.
  split; intros C1 C2.
  - pose proof (@injected_occurs _ _ _ frags doc text fragment before rest body after
                  compile_injectJs Njs Hin Ht C1 C2) as H.
    split; exact H.
  - pose proof (@injected_occurs _ _ _ frags doc text fragment before rest body after
                  compile_injectCss Ncss Hin Ht C1 C2) as H.
    split; exact H.
Qed.

Lemma injected_fragments_occur_in_the_output_witness :
  In "<link href=dist/app.css>" ["<link href=dist/app.css>"] /\
  Text.occurs "dist/app.css" "<link href=dist/app.css>" = true /\
  exists out,
    through (Mjs.injectCss ["<link href=dist/app.css>"]) Demo.template = Ok out /\
    Text.occurs "dist/app.css" out = true.
Proof.
  assert (Hin : In "<link href=dist/app.css>" ["<link href=dist/app.css>"])
    by (left; reflexivity).
  split; [exact Hin|]. split; [reflexivity|].
  exact (proj1 (proj2 (@injected_fragments_occur_in_the_output
                         ["<link href=dist/app.css>"] Demo.template "dist/app.css"
                         "<link href=dist/app.css>" _ _ _ _ Hin eq_refl)
                  eq_refl eq_refl)).
Defined.

Section PipeFacts.
Import RegExp Shape.

Lemma injectJs_builds (jsFiles : list string) :
  exists f, Mjs.injectJs jsFiles = Ok f.
Proof.
  unfold Mjs.injectJs, replaceStream. rewrite compile_injectJs. cbn [bind]. eauto.
Qed.

Lemma injectCss_builds (cssFiles : list string) :
  exists f, Mjs.injectCss cssFiles = Ok f.
Proof.
  unfold Mjs.injectCss, replaceStream. rewrite compile_injectCss. cbn [bind]. eauto.
Qed.

Lemma injectGitHash_builds (rev : string) :
  Js.hasChar "$"%char rev = false -> exists f, Mjs.injectGitHash rev = Ok f.
Proof.
  intro H. unfold Mjs.injectGitHash, replaceStream. rewrite compile_gitHash.
  cbn [bind]. rewrite !hasChar_append, H. cbn. eauto.
Qed.

Lemma removeRegions_builds (rc : string) :
  Text.plain rc = true -> exists f, Mjs.removeRegions rc = Ok f.
Proof.
  intro H. unfold Mjs.removeRegions, replaceStream. rewrite (@compile_remove rc H).
  cbn [bind Js.hasChar]. eauto.
Qed.

Lemma transform_in_order (jsFiles cssFiles : list string) (rev rc doc : string) :
  through (Mjs.transform jsFiles cssFiles rev rc) doc =
  (d1 <- through (Mjs.injectJs jsFiles) doc ;;
   d2 <- through (Mjs.injectCss cssFiles) d1 ;;
   d3 <- through (Mjs.injectGitHash rev) d2 ;;
   through (Mjs.removeRegions rc) d3).
Proof.
  unfold through, Mjs.transform.
  destruct (injectJs_builds jsFiles) as [f1 ->].
  destruct (injectCss_builds cssFiles) as [f2 ->]. cbn [bind].
  destruct (Mjs.injectGitHash rev) as [f3|x]; cbn [bind]; [|reflexivity].
  destruct (Mjs.removeRegions rc) as [f4|x]; reflexivity.
Qed.


Transparent RegExp.replaceAll.


Opaque RegExp.replaceAll.

End PipeFacts.

(** X12.  The pipe of both files is its four stages applied in the order
    js, css, git-hash, remove, each to the output of the one before.  The
    pipe is built, and gives an output for every document, whenever the
    revision holds no [$] and the remove condition holds no metacharacter;
    a pipe that cannot be built fails with the error of its git-hash or of
    its remove stage, never of an inject stage. *)
Theorem pipe_is_the_four_stages_in_order :
  forall (jsFiles cssFiles : list string) (rev rc doc : string),
    through (Mjs.transform jsFiles cssFiles rev rc) doc =
      (d1 <- through (Mjs.injectJs jsFiles) doc ;;
       d2 <- through (Mjs.injectCss cssFiles) d1 ;;
       d3 <- through (Mjs.injectGitHash rev) d2 ;;
       through (Mjs.removeRegions rc) d3) /\
    through (Cjs.transform jsFiles cssFiles rev rc) doc =
      (d1 <- through (Cjs.injectJs jsFiles) doc ;;
       d2 <- through (Cjs.injectCss cssFiles) d1 ;;
       d3 <- through (Cjs.injectGitHash rev) d2 ;;
       through (Cjs.removeRegions rc) d3) /\
    (Js.hasChar "$"%char rev = false -> Text.plain rc = true ->
     (exists out, through (Mjs.transform jsFiles cssFiles rev rc) doc = Ok out) /\
     (exists out, through (Cjs.transform jsFiles cssFiles rev rc) doc = Ok out)) /\
    (forall x,
       Mjs.transform jsFiles cssFiles rev rc = Err x ->
       Mjs.injectGitHash rev = Err x \/ Mjs.removeRegions rc = Err x) /\
    (forall x,
       Cjs.transform jsFiles cssFiles rev rc = Err x ->
       Cjs.injectGitHash rev = Err x \/ Cjs.removeRegions rc = Err x).
Proof.
  intros jsFiles cssFiles rev rc doc.
  assert (B : Js.hasChar "$"%char rev = false -> Text.plain rc = true ->
              exists out, through (Mjs.transform jsFiles cssFiles rev rc) doc = Ok out).
  { intros Hr Hp. unfold through, Mjs.transform.
    destruct (injectJs_builds jsFiles) as [f1 ->].
    destruct (injectCss_builds cssFiles) as [f2 ->].
    destruct (injectGitHash_builds rev Hr) as [f3 ->].
    destruct (removeRegions_builds rc Hp) as [f4 ->]. cbn [bind]. eauto. }
  assert (F : forall x,
              Mjs.transform jsFiles cssFiles rev rc = Err x ->
              Mjs.injectGitHash rev = Err x \/ Mjs.removeRegions rc = Err x).
  { intro x. unfold Mjs.transform.
    destruct (injectJs_builds jsFiles) as [f1 ->].
    destruct (injectCss_builds cssFiles) as [f2 ->]. cbn [bind].
    destruct (Mjs.injectGitHash rev) as [f3|y]; cbn [bind]; [|now left].
    destruct (Mjs.removeRegions rc) as [f4|y]; cbn [bind]; [discriminate | now right]. }
  split; [apply transform_in_order|].
  split; [rewrite transform_same; apply transform_in_order|].
  split; [|split].
  - intros Hr Hp. split; [exact (B Hr Hp)|].
    rewrite transform_same. exact (B Hr Hp).
  - exact F.
  - intro x. rewrite transform_same. exact (F x).
Qed.

Lemma pipe_is_the_four_stages_in_order_witness :
  Js.hasChar "$"%char "0a1b2c" = false /\
  Text.plain "production" = true /\
  exists out, through (Cjs.transform ["<script></script>"] [] "0a1b2c" "production")
                Demo.page = Ok out.
Proof.
  split; [reflexivity|]. split; [reflexivity|].
  exact (proj2 (proj1 (proj2 (proj2 (@pipe_is_the_four_stages_in_order
                                        ["<script></script>"] [] "0a1b2c" "production"
                                        Demo.page))) eq_refl eq_refl)).
Defined.



(** ** The revision *)

Section Trim.

Lemma trimStart_clean (s : string) : startsWithSpace (Js.trimStart s) = false.
Proof.
  induction s as [|c s IH]; [reflexivity|].
  cbn [Js.trimStart]. destruct (Js.isSpace c) eqn:E; [exact IH|].
  cbn [startsWithSpace]. exact E.
Qed.

Lemma trimStart_fixed (s : string) : startsWithSpace s = false -> Js.trimStart s = s.
Proof. destruct s as [|c s]; [reflexivity|]. cbn. now intros ->. Qed.

Lemma trimStart_suffix (s : string) :
  exists ws, s = ws ++ Js.trimStart s /\ allSpace ws = true.
Proof.
  induction s as [|c s [ws [IH A]]]; [now exists ""|].
  cbn [Js.trimStart]. destruct (Js.isSpace c) eqn:E.
  - exists (String c ws). cbn [append allSpace]. rewrite E, A. now rewrite <- IH.
  - now exists "".
Qed.

Lemma allSpace_rev (s acc : string) :
  allSpace (Js.rev s acc) = allSpace s && allSpace acc.
Proof.
  revert acc; induction s as [|c s IH]; intro acc; [reflexivity|].
  cbn [Js.rev allSpace]. rewrite IH. cbn [allSpace].
  now destruct (Js.isSpace c), (allSpace s), (allSpace acc).
Qed.

Lemma rev_acc (s acc : string) : Js.rev s acc = Js.rev s "" ++ acc.
Proof.
  revert acc; induction s as [|c s IH]; intro acc; [reflexivity|].
  cbn [Js.rev]. rewrite IH, (IH (String c "")), append_assoc. reflexivity.
Qed.

Lemma rev_empty (s : string) : Js.rev s "" = "" -> s = "".
Proof.
  destruct s as [|c s]; [reflexivity|]. cbn [Js.rev]. rewrite rev_acc.
  destruct (Js.rev s ""); discriminate.
Qed.

(** Dropping leading white space keeps the last character. *)
Lemma trimStart_keeps_the_end (s : string) :
  Js.trimStart s <> "" ->
  endsWithSpace (Js.trimStart s) = endsWithSpace s.
Proof.
  intro H. unfold endsWithSpace.
  destruct (trimStart_suffix s) as [ws [E _]]. rewrite E at 2.
  rewrite rev_append, (rev_acc (Js.trimStart s) (Js.rev ws "")).
  destruct (Js.rev (Js.trimStart s) "") as [|c t] eqn:R; [|reflexivity].
  apply rev_empty in R. contradiction.
Qed.

Lemma trim_clean (s : string) :
  startsWithSpace (Js.trim s) = false /\ endsWithSpace (Js.trim s) = false.
Proof.
  unfold Js.trim. set (t1 := Js.trimStart s).
  set (t2 := Js.trimStart (Js.rev t1 "")). split.
  - destruct t2 as [|c t] eqn:E; [reflexivity|].
    change (endsWithSpace (String c t) = false). rewrite <- E. unfold t2.
    rewrite trimStart_keeps_the_end.
    + unfold endsWithSpace. rewrite rev_involutive. apply trimStart_clean.
    + fold t2. rewrite E. discriminate.
  - unfold endsWithSpace. rewrite rev_involutive. apply trimStart_clean.
Qed.

Lemma trim_fixed (s : string) :
  startsWithSpace s = false -> endsWithSpace s = false -> Js.trim s = s.
Proof.
  intros H1 H2. unfold Js.trim. rewrite (trimStart_fixed s H1).
  rewrite (trimStart_fixed (Js.rev s "") H2). apply rev_involutive.
Qed.

(** [trim] takes white space away at the two ends, and nothing else. *)
Lemma trim_split (s : string) :
  exists before after,
    s = before ++ Js.trim s ++ after /\
    allSpace before = true /\ allSpace after = true.
Proof.
  unfold Js.trim.
  destruct (trimStart_suffix s) as [l [El Al]].
  destruct (trimStart_suffix (Js.rev (Js.trimStart s) "")) as [w [Ew Aw]].
  exists l, (Js.rev w ""). split; [|split].
  - rewrite El at 1. f_equal.
    rewrite <- (rev_involutive (Js.trimStart s)) at 1.
    rewrite Ew at 1. rewrite rev_append. apply rev_acc.
  - exact Al.
  - rewrite allSpace_rev, Aw. reflexivity.
Qed.

End Trim.

(** X14.  With [--hash] the revision of both files is not what git prints.
    The awaited call resolves with the object [{ stdout, stderr }], whose
    [toString()] is the text [[object Object]]; [trim] removes the white
    space at the two ends of a text and nothing else, and leaves this one as
    it is.  So whatever git prints the revision is [[object Object]], and
    the git-hash stage writes [<!-- [object Object] -->] in place of each
    marker.  A rejected call is the error of the revision; without [--hash]
    the revision is empty. *)
Theorem revision_is_the_text_of_the_result_object :
  forall (e : Env),
    (forall out,
       exec e "git rev-parse HEAD" = Ok out ->
       Mjs.revision e true = Ok "[object Object]" /\
       Cjs.revision e true = Ok "[object Object]") /\
    (forall x,
       exec e "git rev-parse HEAD" = Err x ->
       Mjs.revision e true = Err x /\ Cjs.revision e true = Err x) /\
    (Mjs.revision e false = Ok "" /\ Cjs.revision e false = Ok "") /\
    (forall s,
       startsWithSpace (Js.trim s) = false /\
       endsWithSpace (Js.trim s) = false /\
       exists before after,
         s = before ++ Js.trim s ++ after /\
         allSpace before = true /\ allSpace after = true) /\
    MarkerStage "<!-- inject:git-hash -->" "<!-- [object Object] -->"
      (Mjs.injectGitHash "[object Object]") /\
    MarkerStage "<!-- inject:git-hash -->" "<!-- [object Object] -->"
      (Cjs.injectGitHash "[object Object]").
Proof.
  intro e.
  assert (N : "<!-- inject:git-hash -->" <> "") by discriminate.
  pose proof (@markerStage_string _ _ "<!-- [object Object] -->"
                compile_gitHash N eq_refl) as S.
  split; [|split; [|split; [|split; [|split]]]].
  - intros out H. unfold Mjs.revision, Cjs.revision. rewrite H. now split.
  - intros x H. unfold Mjs.revision, Cjs.revision. rewrite H. now split.
  - now split.
  - intro s. destruct (trim_clean s) as [A B].
    split; [exact A|]. split; [exact B|]. apply trim_split.
  - exact S.
  - exact S.
Qed.

Lemma revision_is_the_text_of_the_result_object_witness :
  exec Demo.site "git rev-parse HEAD" =
    Ok {| stdout := "57cf80ae" ++ Js.nl; stderr := "" |} /\
  Mjs.revision Demo.site true = Ok "[object Object]".
Proof.
  split; [reflexivity|].
  exact (proj1 (proj1 (@revision_is_the_text_of_the_result_object Demo.site)
                  {| stdout := "57cf80ae" ++ Js.nl; stderr := "" |} eq_refl)).
Defined.

(** ** Running an inject stage twice *)

Section SecondPass.
Import RegExp Shape.

(** A pattern that ends with its only [c1] and starts a text before a
    [c1] of that text ends at that [c1] or before it. *)
Lemma stripPrefix_closed (p : string) :
  forall (w : string) (c1 : ascii) (x : string),
    Js.hasChar c1 p = false ->
    Js.stripPrefix (p ++ String c1 "") (w ++ String c1 x) <> None ->
    Js.stripPrefix (p ++ String c1 "") (w ++ String c1 "") <> None.
Proof.
  induction p as [|a p IH]; intros w c1 x Hp H.
  - destruct w as [|d w]; cbn [append Js.stripPrefix] in *.
    + rewrite Ascii.eqb_refl. discriminate.
    + destruct (Ascii.eqb c1 d); [|congruence].
      destruct (w ++ String c1 ""); discriminate.
  - simpl in Hp. apply orb_false_elim in Hp as [Ha Hp].
    destruct w as [|d w]; cbn [append Js.stripPrefix] in *.
    + rewrite Ascii.eqb_sym, Ha in H. congruence.
    + destruct (Ascii.eqb a d); [|congruence]. now apply (IH w c1 x).
Qed.

Lemma suffix_keeps_the_end (x y jw : string) (c c1 : ascii) :
  x ++ String c y = jw ++ String c1 "" -> exists w, String c y = w ++ String c1 "".
Proof.
  intro E. destruct (append_eq_split _ _ _ _ E) as [[z [-> Hz]]|[z [-> Hz]]].
  - now exists z.
  - destruct z as [|d z].
    + cbn [append] in Hz. injection Hz as <- <-. now exists "".
    + cbn [append] in Hz. injection Hz as _ Hz. destruct z; discriminate.
Qed.

Variables start stop joined : string.
Variables (m0 c1 : ascii) (st sp jm jw : string).
Hypothesis start_head : start = String m0 st.
Hypothesis start_head_only : Js.hasChar m0 st = false.
Hypothesis start_end : start = sp ++ String c1 "".
Hypothesis start_end_only : Js.hasChar c1 sp = false.
Hypothesis joined_head : joined = String m0 jm.
Hypothesis joined_end : joined = jw ++ String c1 "".
Hypothesis joined_clean : Text.occurs start joined = false.

(** No start marker begins in the text before a replaced region, nor in the
    replacement. *)
Lemma no_start_up_to_the_replacement (doc before rest x : string) :
  Text.cut start doc = Some (before, rest) ->
  forall y1 c y2,
    before ++ joined = y1 ++ String c y2 ->
    Js.stripPrefix start (String c y2 ++ x) = None.
Proof.
  intros C y1 c y2 E.
  assert (In_joined : forall z, joined = z ++ String c y2 ->
                                Js.stripPrefix start (String c y2 ++ x) = None).
  { intros z Ez. destruct (Js.stripPrefix start (String c y2 ++ x)) eqn:S;
      [|reflexivity].
    exfalso. rewrite joined_end in Ez.
    destruct (@suffix_keeps_the_end _ _ _ _ _ (eq_sym Ez)) as [w Ew].
    assert (N : Js.stripPrefix start (String c y2) <> None).
    { rewrite Ew, start_end. apply (@stripPrefix_closed sp w c1 x start_end_only).
      rewrite <- start_end.
      replace (w ++ String c1 x) with (String c y2 ++ x)
        by (rewrite Ew, append_assoc; reflexivity).
      rewrite S. discriminate. }
    destruct (Js.stripPrefix start (String c y2)) as [r|] eqn:P; [|congruence].
    apply stripPrefix_Some in P. rewrite <- joined_end in Ez.
    pose proof (occurs_intro start z r) as O.
    rewrite <- P, <- Ez, joined_clean in O. discriminate. }
  destruct (append_eq_split _ _ _ _ E) as [[z [-> Hz]]|[z [Hb Hz]]].
  - now apply (In_joined z).
  - destruct z as [|d z].
    + apply (In_joined ""). now rewrite Hz.
    + pose proof (cut_first _ _ C _ _ _ Hb) as N.
      rewrite Hz. rewrite start_head in *. rewrite joined_head.
      cbn [append Js.stripPrefix] in *.
      destruct (Ascii.eqb m0 d); [|reflexivity].
      rewrite append_assoc. cbn [append].
      apply (@stripPrefix_blind st z m0 (st ++ rest) (jm ++ x) start_head_only N).
Qed.

Lemma second_pass (n : nat) :
  forall doc,
    String.length doc < n ->
    replaceAll (regionRegex start stop) (fun _ => joined)
      (replaceAll (regionRegex start stop) (fun _ => joined) doc) =
    replaceAll (regionRegex start stop) (fun _ => joined) doc.
Proof.
  assert (Hs : start <> "") by (rewrite start_head; discriminate).
  induction n as [|n IH]; intros doc Hn; [lia|].
  - rewrite (replaceAll_region stop (fun _ => joined) doc Hs).
    destruct (Text.cut start doc) as [[before rest]|] eqn:C1.
    2:{ rewrite replaceAll_region by exact Hs. now rewrite C1. }
    destruct (Text.cut stop rest) as [[body after]|] eqn:C2.
    2:{ rewrite replaceAll_region by exact Hs. now rewrite C1, C2. }
    pose proof (cut_length _ _ C1) as L1. pose proof (cut_length _ _ C2) as L2.
    rewrite <- append_assoc. rewrite replaceAll_before.
    + rewrite IH; [reflexivity|].
      rewrite start_head in L1. cbn [String.length] in L1. lia.
    + intros a1 c a2 E. rewrite matchAt_region.
      now rewrite (@no_start_up_to_the_replacement doc before rest _ C1 a1 c a2 E).
Qed.

End SecondPass.

Section SecondPassOfTheStages.
Import RegExp Shape.

Lemma through_twice (src start stop joined inner : string) (m0 c1 : ascii)
  (st sp doc out : string) :
  compile src = Ok (regionRegex start stop) ->
  start = String m0 st -> Js.hasChar m0 st = false ->
  start = sp ++ String c1 "" -> Js.hasChar c1 sp = false ->
  joined = String m0 (inner ++ String c1 "") ->
  Text.occurs start joined = false ->
  through (replaceStream src (ByFunction (fun _ => joined))) doc = Ok out ->
  through (replaceStream src (ByFunction (fun _ => joined))) out = Ok out.
Proof.
  intros C H1 H2 H3 H4 Hj Hc. unfold through, replaceStream. rewrite C. cbn [bind].
  intro E. injection E as <-. f_equal.
  apply (@second_pass start stop joined m0 c1 st sp (inner ++ String c1 "")
           (String m0 inner) H1 H2 H3 H4 Hj) with (n := S (String.length doc)).
  - rewrite Hj. reflexivity.
  - exact Hc.
  - lia.
Qed.

End SecondPassOfTheStages.

(** X15.  Running an inject stage on its own output changes nothing, as
    long as the joined fragments begin with [<], end with [>] (as every
    generated tag does) and do not hold the start marker of the stage: the
    regions were replaced with their markers, and the text put in their
    place forms no new start marker with what surrounds it.  This holds for
    the js and the css stage of both files. *)
Theorem inject_stage_twice_is_once :
  forall (fragment : string) (others : list string) (inner doc out : string),
    let frags := fragment :: others in
    Js.join Js.nl frags = "<" ++ inner ++ ">" ->
    (Text.occurs "<!-- inject:js -->" (Js.join Js.nl frags) = false ->
     through (Mjs.injectJs frags) doc = Ok out ->
     through (Mjs.injectJs frags) out = Ok out /\
     through (Cjs.injectJs frags) out = Ok out) /\
    (Text.occurs "<!-- inject:css -->" (Js.join Js.nl frags) = false ->
     through (Mjs.injectCss frags) doc = Ok out ->
     through (Mjs.injectCss frags) out = Ok out /\
     through (Cjs.injectCss frags) out = Ok out).
Proof.
  intros fragment others inner doc out frags Hj.
  unfold Mjs.injectJs, Mjs.injectCss, Cjs.injectJs, Cjs.injectCss.
  cbn [nonEmpty frags]. split; intros Hc Ht.
  - pose proof (@through_twice _ _ _ (Js.join Js.nl frags) inner "<"%char ">"%char
                  "!-- inject:js -->" "<!-- inject:js --" doc out
                  compile_injectJs eq_refl eq_refl eq_refl eq_refl Hj Hc Ht) as H.
    split; exact H.
  - pose proof (@through_twice _ _ _ (Js.join Js.nl frags) inner "<"%char ">"%char
                  "!-- inject:css -->" "<!-- inject:css --" doc out
                  compile_injectCss eq_refl eq_refl eq_refl eq_refl Hj Hc Ht) as H.
    split; exact H.
Qed.

Lemma inject_stage_twice_is_once_witness :
  Js.join Js.nl ["<script src=a.js></script>"; "<script src=b.js></script>"] =
    "<" ++ ("script src=a.js></script>" ++ Js.nl ++ "<script src=b.js></script") ++ ">" /\
  Text.occurs "<!-- inject:js -->"
    (Js.join Js.nl ["<script src=a.js></script>"; "<script src=b.js></script>"]) = false /\
  through (Mjs.injectJs ["<script src=a.js></script>"; "<script src=b.js></script>"])
    "<p><!-- inject:js -->J<!-- endinject --></p>" =
    Ok ("<p><script src=a.js></script>" ++ Js.nl ++ "<script src=b.js></script></p>") /\
  through (Mjs.injectJs ["<script src=a.js></script>"; "<script src=b.js></script>"])
    ("<p><script src=a.js></script>" ++ Js.nl ++ "<script src=b.js></script></p>") =
    Ok ("<p><script src=a.js></script>" ++ Js.nl ++ "<script src=b.js></script></p>").
Proof.
  assert (Hj : Js.join Js.nl ["<script src=a.js></script>"; "<script src=b.js></script>"] =
               "<" ++ ("script src=a.js></script>" ++ Js.nl
                         ++ "<script src=b.js></script") ++ ">") by reflexivity.
  assert (Hc : Text.occurs "<!-- inject:js -->"
                 (Js.join Js.nl ["<script src=a.js></script>";
                                 "<script src=b.js></script>"]) = false)
    by (vm_compute; reflexivity).
  assert (Ht : through (Mjs.injectJs ["<script src=a.js></script>";
                                      "<script src=b.js></script>"])
                 "<p><!-- inject:js -->J<!-- endinject --></p>" =
               Ok ("<p><script src=a.js></script>" ++ Js.nl
                     ++ "<script src=b.js></script></p>"))
    by (vm_compute; reflexivity).
  split; [exact Hj|]. split; [exact Hc|]. split; [exact Ht|].
  exact (proj1 (proj1 (@inject_stage_twice_is_once
                         "<script src=a.js></script>" ["<script src=b.js></script>"]
                         ("script src=a.js></script>" ++ Js.nl
                            ++ "<script src=b.js></script")
                         "<p><!-- inject:js -->J<!-- endinject --></p>"
                         ("<p><script src=a.js></script>" ++ Js.nl
                            ++ "<script src=b.js></script></p>") Hj) Hc Ht)).
Defined.

(** ** After the git-hash stage *)

Section NoMarkerLeft.
Import RegExp Shape.

Lemma cut_none_after_clean_prefix (p y x : string) :
  (forall y1 c y2, y = y1 ++ String c y2 -> Js.stripPrefix p (String c y2 ++ x) = None) ->
  Text.cut p x = None ->
  Text.cut p (y ++ x) = None.
Proof.
  induction y as [|c y IH]; intros H Hx; [exact Hx|].
  cbn [append Text.cut].
  rewrite (H "" c y eq_refl : Js.stripPrefix p (String c (y ++ x)) = None).
  rewrite IH; [reflexivity | | exact Hx].
  intros y1 d y2 ->. apply (H (String c y1)). reflexivity.
Qed.

Lemma marker_stage_leaves_none (marker text inner : string) (m0 c1 : ascii)
  (st sp : string) (n : nat) :
  marker = String m0 st -> Js.hasChar m0 st = false ->
  marker = sp ++ String c1 "" -> Js.hasChar c1 sp = false ->
  text = String m0 (inner ++ String c1 "") ->
  Text.occurs marker text = false ->
  forall doc,
    String.length doc < n ->
    Text.cut marker (replaceAll (markerRegex marker) (fun _ => text) doc) = None.
Proof.
  intros H1 H2 H3 H4 Ht Hc.
  assert (Hm : marker <> "") by (rewrite H1; discriminate).
  induction n as [|n IH]; intros doc Hn; [lia|].
  rewrite (replaceAll_marker (fun _ => text) doc Hm).
  destruct (Text.cut marker doc) as [[before after]|] eqn:C; [|exact C].
  pose proof (cut_length _ _ C) as L.
  rewrite <- append_assoc. apply cut_none_after_clean_prefix.
  - intros y1 c y2 E.
    apply (@no_start_up_to_the_replacement marker text m0 c1 st sp
             (inner ++ String c1 "") (String m0 inner) H1 H2 H3 H4 Ht
             ltac:(rewrite Ht; reflexivity) Hc doc before after _ C y1 c y2 E).
  - apply IH. rewrite H1 in L. cbn [String.length] in L. lia.
Qed.

End NoMarkerLeft.

(** X16.  The output of the git-hash stage of both files holds no git-hash
    marker, and so a second pass of the stage changes nothing, whenever the
    comment put in place of the marker does not itself hold the marker (as
    for the empty revision and for every commit identifier): every
    occurrence is replaced, and the comments form no new marker with the
    text around them. *)
Theorem git_hash_stage_leaves_no_marker :
  forall (rev doc out : string),
    Js.hasChar "$"%char rev = false ->
    Text.occurs "<!-- inject:git-hash -->" ("<!-- " ++ rev ++ " -->") = false ->
    (through (Mjs.injectGitHash rev) doc = Ok out ->
     Text.occurs "<!-- inject:git-hash -->" out = false /\
     through (Mjs.injectGitHash rev) out = Ok out) /\
    (through (Cjs.injectGitHash rev) doc = Ok out ->
     Text.occurs "<!-- inject:git-hash -->" out = false /\
     through (Cjs.injectGitHash rev) out = Ok out).
Proof.
  intros rev doc out Hd Hc.
  assert (D : Js.hasChar "$"%char ("<!-- " ++ rev ++ " -->") = false).
  { rewrite !hasChar_append, Hd. reflexivity. }
  assert (N : "<!-- inject:git-hash -->" <> "") by discriminate.
  assert (H : through (Mjs.injectGitHash rev) doc = Ok out ->
              Text.occurs "<!-- inject:git-hash -->" out = false /\
              through (Mjs.injectGitHash rev) out = Ok out).
  { unfold through, Mjs.injectGitHash, replaceStream.
    rewrite compile_gitHash. cbn [bind]. rewrite D. cbn [bind].
    intro E. injection E as <-.
    pose proof (@marker_stage_leaves_none "<!-- inject:git-hash -->"
                  ("<!-- " ++ rev ++ " -->") ("!-- " ++ rev ++ " --")
                  "<"%char ">"%char "!-- inject:git-hash -->"
                  "<!-- inject:git-hash --" (S (String.length doc))
                  eq_refl eq_refl eq_refl eq_refl
                  ltac:(cbn [append]; now rewrite !append_assoc) Hc doc
                  ltac:(lia)) as C.
    cbn [append] in C |- *.
    match type of C with Text.cut _ ?o = None => set (out := o) in * end.
    clearbody out. split.
    - unfold Text.occurs. now rewrite C.
    - f_equal. rewrite replaceAll_marker by exact N. now rewrite C. }
  split; exact H.
Qed.

Lemma git_hash_stage_leaves_no_marker_witness :
  Js.hasChar "$"%char "" = false /\
  Text.occurs "<!-- inject:git-hash -->" ("<!-- " ++ "" ++ " -->") = false /\
  through (Mjs.injectGitHash "") Demo.page =
    Ok ("<p><!--  --></p>" ++ "<!-- remove:production -->P<!-- endremove -->"
          ++ "<!--  -->") /\
  Text.occurs "<!-- inject:git-hash -->"
    ("<p><!--  --></p>" ++ "<!-- remove:production -->P<!-- endremove -->"
       ++ "<!--  -->") = false.
Proof.
  assert (Hc : Text.occurs "<!-- inject:git-hash -->" ("<!-- " ++ "" ++ " -->") = false)
    by (vm_compute; reflexivity).
  assert (Ht : through (Mjs.injectGitHash "") Demo.page =
               Ok ("<p><!--  --></p>" ++ "<!-- remove:production -->P<!-- endremove -->"
                     ++ "<!--  -->"))
    by (vm_compute; reflexivity).
  split; [reflexivity|]. split; [exact Hc|]. split; [exact Ht|].
  exact (proj1 (proj1 (@git_hash_stage_leaves_no_marker ""
                         Demo.page
                         ("<p><!--  --></p>"
                            ++ "<!-- remove:production -->P<!-- endremove -->"
                            ++ "<!--  -->") eq_refl Hc) Ht)).
Defined.

(** ** Instances of the equivalences above *)


